(** * parse_errors.py: the compiler-diagnostic filter

    A shallow embedding of [src/parse_errors.py], a script that reads
    newline-delimited JSON records from standard input, keeps the compiler
    messages of level "error" or "warning", formats one entry per message and
    prints the two collections, each deduplicated and sorted.

    Conventions of the embedding.
    - Python text is a [string]; a character is a code point below 256.
    - A decoded JSON document is a [value]: the Python object [json.loads]
      returns.  A float is kept by what the script can observe of it (its
      [repr] text and its truth value): binary64 arithmetic is not modelled.
    - A computation that may raise is a [result]; the exception names are the
      Python ones.  The script catches [JSONDecodeError] only, every other
      exception leaves the loop and ends the process before anything is
      printed.
    - [print] encodes its text for standard output and raises
      [UnicodeEncodeError] on a character the encoding of the stream does not
      have; the encoding is a parameter of the model ([stdout_encoding]).
    - [json.loads] is a parameter of the script's model ([loads]); a reference
      decoder for JSON text, [json_loads], instantiates it on concrete input.
    - The iteration order of a Python [set] of strings depends on the hash
      seed of the process: it is a parameter too ([set_iteration]). *)

From Stdlib Require Import List String Ascii ZArith Bool Lia Arith.
From Stdlib Require Import Permutation Sorted OrdersEx DecimalString RelationClasses.
Import ListNotations.
Local Open Scope list_scope.
Local Open Scope string_scope.

Set Implicit Arguments.
Local Set Warnings "-register-all".

(** ** Exceptions and results *)

(** The exceptions of the lookups ([AttributeError], [TypeError],
    [KeyError], [IndexError]), of the decoder ([JSONDecodeError] and, from
    the interpreter's limits, [ValueError] and [RecursionError]) and of
    [print] ([UnicodeEncodeError]).
    [Unmodelled] is no Python exception: it is the answer of the reference
    decoder on text outside the fragment it covers. *)
Inductive exn : Type :=
| JSONDecodeError
| AttributeError
| TypeError
| KeyError
| IndexError
| ValueError
| RecursionError
| UnicodeEncodeError
| Unmodelled.

Inductive result (A : Type) : Type :=
| Ok (a : A)
| Raise (e : exn).

Arguments Ok {A} a.
Arguments Raise {A} e.

Definition bind {A B : Type} (c : result A) (k : A -> result B) : result B :=
  match c with
  | Ok a => k a
  | Raise e => Raise e
  end.

Notation "x <- c ;; k" := (bind c (fun x => k))
  (at level 61, c at next level, right associativity).

(** [try: c  except json.JSONDecodeError: pass] around a loop body that
    leaves the state [st] untouched until its last statement. *)
Definition except_JSONDecodeError {A : Type} (c : result A) (st : A) : result A :=
  match c with
  | Raise JSONDecodeError => Ok st
  | r => r
  end.

Definition is_ok {A : Type} (c : result A) : bool :=
  match c with Ok _ => true | Raise _ => false end.

(** ** Python values *)

Record pyfloat : Type := { float_repr : string; float_bool : bool }.

Inductive value : Type :=
| VNone
| VBool (b : bool)
| VInt (n : Z)
| VFloat (f : pyfloat)
| VStr (s : string)
| VList (l : list value)
| VDict (d : list (string * value)).

(** A dict keeps its keys in insertion order; a key occurs once. *)
Fixpoint dict_lookup (d : list (string * value)) (key : string) : option value :=
  match d with
  | [] => None
  | (k, v) :: d' => if String.eqb k key then Some v else dict_lookup d' key
  end.

(** [d[key] = v]: an existing key keeps its place and takes the new value. *)
Fixpoint dict_set (d : list (string * value)) (key : string) (v : value)
  : list (string * value) :=
  match d with
  | [] => [(key, v)]
  | (k, w) :: d' =>
      if String.eqb k key then (k, v) :: d' else (k, w) :: dict_set d' key v
  end.

Definition is_dict (v : value) : bool :=
  match v with VDict _ => true | _ => false end.

(** [d.get(key, default)] on a dict. *)
Definition dict_get (d : list (string * value)) (key : string) (default : value)
  : value :=
  match dict_lookup d key with
  | Some v => v
  | None => default
  end.

(** [obj.get(key, default)]: only a dict has the method. *)
Definition py_get (obj : value) (key : string) (default : value) : result value :=
  match obj with
  | VDict d => Ok (dict_get d key default)
  | _ => Raise AttributeError
  end.

(** [v == 'literal']: a value equals a string only when it is that string. *)
Definition py_eq_str (v : value) (s : string) : bool :=
  match v with
  | VStr t => String.eqb t s
  | _ => false
  end.

(** [v in (s1, s2, ...)] for a tuple of string literals. *)
Definition py_in (v : value) (ss : list string) : bool :=
  existsb (py_eq_str v) ss.

(** [bool(v)], the test of [if v:]. *)
Definition truthy (v : value) : bool :=
  match v with
  | VNone => false
  | VBool b => b
  | VInt n => negb (Z.eqb n 0)
  | VFloat f => float_bool f
  | VStr s => negb (String.eqb s "")
  | VList l => match l with [] => false | _ => true end
  | VDict d => match d with [] => false | _ => true end
  end.

(** [v[0]]: the first element of a list, the first character of a string;
    a dict has no key [0] (JSON keys are strings); the other values are not
    subscriptable. *)
Definition py_getitem0 (v : value) : result value :=
  match v with
  | VList (x :: _) => Ok x
  | VList [] => Raise IndexError
  | VStr (String c _) => Ok (VStr (String c ""))
  | VStr "" => Raise IndexError
  | VDict _ => Raise KeyError
  | _ => Raise TypeError
  end.

(** ** Text of a value: [str] and [repr] *)

Definition backslash : ascii := "092"%char.
Definition dquote : ascii := "034"%char.
Definition squote : ascii := "039"%char.
Definition newline : ascii := "010"%char.

Definition str_int (n : Z) : string := NilZero.string_of_int (Z.to_int n).

Definition hex_digit (n : nat) : ascii :=
  nth n (list_ascii_of_string "0123456789abcdef") "0"%char.

Definition hex2 (n : nat) : string :=
  String (hex_digit (n / 16)) (String (hex_digit (n mod 16)) "").

Fixpoint contains (c : ascii) (s : string) : bool :=
  match s with
  | "" => false
  | String a s' => Ascii.eqb a c || contains c s'
  end.

(** [str.isprintable] on a character below 256. *)
Definition isprintable (c : ascii) : bool :=
  let n := nat_of_ascii c in
  negb ((n <? 32) || ((127 <=? n) && (n <=? 160)) || (n =? 173))%nat.

Definition repr_char (quote c : ascii) : string :=
  if Ascii.eqb c backslash then String backslash (String backslash "")
  else if Ascii.eqb c quote then String backslash (String quote "")
  else if Ascii.eqb c "009"%char then String backslash "t"
  else if Ascii.eqb c "010"%char then String backslash "n"
  else if Ascii.eqb c "013"%char then String backslash "r"
  else if isprintable c then String c ""
  else String backslash ("x" ++ hex2 (nat_of_ascii c)).

Fixpoint repr_chars (quote : ascii) (s : string) : string :=
  match s with
  | "" => ""
  | String c s' => repr_char quote c ++ repr_chars quote s'
  end.

(** [repr] of a string: single quotes, unless the text has a single quote
    and no double quote. *)
Definition str_repr (s : string) : string :=
  let quote := if contains squote s && negb (contains dquote s)
               then dquote else squote in
  String quote (repr_chars quote s ++ String quote "").

Fixpoint join (sep : string) (l : list string) : string :=
  match l with
  | [] => ""
  | [x] => x
  | x :: l' => x ++ sep ++ join sep l'
  end.

Fixpoint py_repr (v : value) : string :=
  match v with
  | VNone => "None"
  | VBool true => "True"
  | VBool false => "False"
  | VInt n => str_int n
  | VFloat f => float_repr f
  | VStr s => str_repr s
  | VList l => "[" ++ join ", " (map py_repr l) ++ "]"
  | VDict d =>
      "{" ++ join ", " (map (fun kv => str_repr (fst kv) ++ ": " ++ py_repr (snd kv)) d)
          ++ "}"
  end.

(** [str(v)], which is what an f-string field [{v}] inserts. *)
Definition py_str (v : value) : string :=
  match v with
  | VStr s => s
  | _ => py_repr v
  end.

(** ** Text operations of the script *)

(** [str.isspace] on a character below 256. *)
Definition isspace (c : ascii) : bool :=
  let n := nat_of_ascii c in
  ((9 <=? n) && (n <=? 13) || (28 <=? n) && (n <=? 32) || (n =? 133) || (n =? 160))%nat.

Fixpoint lstrip (s : string) : string :=
  match s with
  | "" => ""
  | String c s' => if isspace c then lstrip s' else s
  end.

Fixpoint rstrip (s : string) : string :=
  match s with
  | "" => ""
  | String c s' =>
      let r := rstrip s' in
      if isspace c && String.eqb r "" then "" else String c r
  end.

(** [line.strip()] *)
Definition strip (s : string) : string := rstrip (lstrip s).

(** ** Sets of strings and [sorted] *)

(** [a < b] on strings: lexicographic on code points. *)
Definition str_ltb (a b : string) : bool :=
  match String_as_OT.compare a b with Lt => true | _ => false end.

Definition str_lt (a b : string) : Prop := String_as_OT.lt a b.

Fixpoint insert_sorted (x : string) (l : list string) : list string :=
  match l with
  | [] => [x]
  | y :: l' => if str_ltb y x then y :: insert_sorted x l' else x :: l
  end.

(** [sorted(iterable)]: ascending, by [<] on strings. *)
Fixpoint sorted (l : list string) : list string :=
  match l with
  | [] => []
  | x :: l' => insert_sorted x (sorted l')
  end.

(** [set(l)], seen through the only thing the script does with it: iterate
    over it.  Each member comes once; the order depends on the hash seed of
    the process and is left open. *)
Record set_iteration : Type := {
  set_iter :> list string -> list string;
  set_iter_NoDup : forall l, NoDup (set_iter l);
  set_iter_In : forall l x, In x (set_iter l) <-> In x l
}.

(** One iteration order: members in the order of their last insertion. *)
Definition insertion_order : set_iteration :=
  {| set_iter := nodup string_dec;
     set_iter_NoDup := NoDup_nodup string_dec;
     set_iter_In := fun l x => nodup_In string_dec l x |}.

(** Another one: the reverse. *)
Definition reverse_order : set_iteration :=
  {| set_iter := fun l => rev (nodup string_dec l);
     set_iter_NoDup := fun l => NoDup_rev (NoDup_nodup string_dec l);
     set_iter_In := fun l x =>
       iff_trans (iff_sym (in_rev (nodup string_dec l) x)) (nodup_In string_dec l x) |}.

(** ** Standard output *)

(** The encoding of standard output, seen through the characters it can
    encode under the error handler of the stream.  Every encoding Python
    takes for its standard streams encodes the ASCII characters. *)
Record stdout_encoding : Type := {
  encodes : ascii -> bool;
  encodes_ascii : forall c, (nat_of_ascii c < 128)%nat -> encodes c = true
}.

Fixpoint encodable (enc : stdout_encoding) (s : string) : bool :=
  match s with
  | "" => true
  | String c s' => encodes enc c && encodable enc s'
  end.

(** UTF-8 encodes every character of the model's text; ASCII encodes the
    characters below 128 only. *)
Definition utf_8 : stdout_encoding :=
  {| encodes := fun _ => true; encodes_ascii := fun _ _ => eq_refl |}.

Definition ascii_encoding : stdout_encoding :=
  {| encodes := fun c => (nat_of_ascii c <? 128)%nat;
     encodes_ascii := fun c H => proj2 (Nat.ltb_lt (nat_of_ascii c) 128) H |}.

(** ** The script *)

(** The two accumulators, [errors] and [warnings] (lines 5-6). *)
Record state : Type := { errors : list string; warnings : list string }.

Definition initial : state := {| errors := []; warnings := [] |}.

(** The f-string of line 25. *)
Definition format_entry (level file_name line_start message : value) : string :=
  py_str level ++ "|" ++ py_str file_name ++ ":" ++ py_str line_start
    ++ "|" ++ py_str message.

(** Lines 14-25: classification of a decoded record and extraction of its
    entry.  [Ok None]: the record is passed over; [Ok (Some (level, entry))]:
    [entry] is built and is about to be appended. *)
Definition diagnostic (data : value) : result (option (value * string)) :=
  reason <- py_get data "reason" VNone ;;
  if py_eq_str reason "compiler-message" then
    msg <- py_get data "message" (VDict []) ;;
    level <- py_get msg "level" VNone ;;
    if py_in level ["error"; "warning"] then
      spans <- py_get msg "spans" (VList []) ;;
      if truthy spans then
        span <- py_getitem0 spans ;;
        file_name <- py_get span "file_name" (VStr "unknown") ;;
        line_start <- py_get span "line_start" (VInt 0) ;;
        message <- py_get msg "message" (VStr "") ;;
        Ok (Some (level, format_entry level file_name line_start message))
      else Ok None
    else Ok None
  else Ok None.

(** Lines 27-30. *)
Definition append_entry (st : state) (level : value) (entry : string) : state :=
  if py_eq_str level "error"
  then {| errors := (errors st ++ [entry])%list; warnings := warnings st |}
  else {| errors := errors st; warnings := (warnings st ++ [entry])%list |}.

Section Script.

(** [json.loads] *)
Variable loads : string -> result value.

(** The iteration order of [set(...)] in this process. *)
Variable set_of : set_iteration.

(** Lines 9-32: one turn of the loop on [line]. *)
Definition loop_body (st : state) (line : string) : result state :=
  let line := strip line in
  if String.eqb line "" then Ok st
  else
    except_JSONDecodeError
      (data <- loads line ;;
       d <- diagnostic data ;;
       match d with
       | Some (level, entry) => Ok (append_entry st level entry)
       | None => Ok st
       end)
      st.

(** Line 8: [for line in sys.stdin]. *)
Fixpoint for_lines (st : state) (stdin : list string) : result state :=
  match stdin with
  | [] => Ok st
  | line :: rest => st' <- loop_body st line ;; for_lines st' rest
  end.

(** The encoding of standard output in this process. *)
Variable encoding : stdout_encoding.

(** [print(s)] writes [s] and a newline. *)
Definition print (s : string) : string := s ++ String newline "".

(** A run of [print] calls: the text written to standard output, and the
    exception that ended the run of calls, if any.  [print(s)] encodes [s]
    before it writes: when it raises, nothing of [s] has been written, and
    the text of the calls before it stays on standard output. *)
Fixpoint print_each (l : list string) : string * option exn :=
  match l with
  | [] => ("", None)
  | s :: l' =>
      if encodable encoding s then
        let (out, raised) := print_each l' in (print s ++ out, raised)
      else ("", Some UnicodeEncodeError)
  end.

(** Lines 35-41: the texts given to [print], in order. *)
Definition prints (st : state) : list string :=
  ("=== ERRORS ===" :: sorted (set_of (errors st)))
  ++ String newline "=== WARNINGS ===" :: sorted (set_of (warnings st)).

(** Lines 35-41. *)
Definition output (st : state) : string * option exn := print_each (prints st).

(** The whole script: what it writes to standard output when it ends
    normally, or the exception that ends it. *)
Definition main (stdin : list string) : result string :=
  st <- for_lines initial stdin ;;
  match output st with
  | (out, None) => Ok out
  | (_, Some e) => Raise e
  end.

(** What the caller of the process sees: standard output and exit status.
    An exception raised in the loop ends the process with status 1 before
    line 35, so nothing has been written to standard output; an exception
    raised by a [print] ends it with status 1 after the text of the calls
    before it. *)
Record outcome : Type := { stdout : string; exit_status : Z }.

Definition run (stdin : list string) : outcome :=
  match for_lines initial stdin with
  | Raise _ => {| stdout := ""; exit_status := 1 |}
  | Ok st =>
      match output st with
      | (out, None) => {| stdout := out; exit_status := 0 |}
      | (out, Some _) => {| stdout := out; exit_status := 1 |}
      end
  end.

End Script.

(** ** A reference decoder for JSON text

    [json_loads] follows the scanner of Python's [json] module on the
    fragment of JSON the model covers.  Outside the fragment it answers
    [Raise Unmodelled], which is no outcome of [json.loads] and says nothing
    about it: a float literal ([1.5], [1e3], [NaN], [Infinity]), a [\u]
    escape above [00ff], or nesting deeper than [max_depth] (where the
    interpreter raises [RecursionError] depends on its recursion limit).
    Every other answer is the one of [json.loads].  An integer literal of
    more than [max_int_digits] digits raises [ValueError], not a JSON decode
    error: the conversion [int(...)] of the scanner refuses it (CPython 3.11
    and later, [sys.int_max_str_digits] at its default). *)

Definition max_depth : nat := 100.
Definition max_int_digits : nat := 4300.

Definition is_json_ws (c : ascii) : bool :=
  Ascii.eqb c " "%char || Ascii.eqb c "009"%char
  || Ascii.eqb c "010"%char || Ascii.eqb c "013"%char.

Fixpoint skip_ws (s : string) : string :=
  match s with
  | String c s' => if is_json_ws c then skip_ws s' else s
  | "" => ""
  end.

Definition is_digit (c : ascii) : bool :=
  let n := nat_of_ascii c in ((48 <=? n) && (n <=? 57))%nat.

Definition digit_value (c : ascii) : Z := Z.of_nat (nat_of_ascii c) - 48.

Definition hex_value (c : ascii) : option nat :=
  let n := nat_of_ascii c in
  if ((48 <=? n) && (n <=? 57))%nat then Some (n - 48)%nat
  else if ((97 <=? n) && (n <=? 102))%nat then Some (n - 87)%nat
  else if ((65 <=? n) && (n <=? 70))%nat then Some (n - 55)%nat
  else None.

Definition hex4 (a b c d : ascii) : option nat :=
  match hex_value a, hex_value b, hex_value c, hex_value d with
  | Some x, Some y, Some z, Some w => Some (((x * 16 + y) * 16 + z) * 16 + w)%nat
  | _, _, _, _ => None
  end.

(** The character a one-letter escape stands for. *)
Definition escape_char (e : ascii) : option ascii :=
  if Ascii.eqb e dquote then Some dquote
  else if Ascii.eqb e backslash then Some backslash
  else if Ascii.eqb e "/"%char then Some "/"%char
  else if Ascii.eqb e "b"%char then Some "008"%char
  else if Ascii.eqb e "f"%char then Some "012"%char
  else if Ascii.eqb e "n"%char then Some "010"%char
  else if Ascii.eqb e "r"%char then Some "013"%char
  else if Ascii.eqb e "t"%char then Some "009"%char
  else None.

(** [scanstring], strict: the text after an opening quote, up to the
    closing one; answers the decoded text and what follows it. *)
Fixpoint scanstring (s : string) : result (string * string) :=
  match s with
  | "" => Raise JSONDecodeError
  | String c s' =>
      if Ascii.eqb c dquote then Ok ("", s')
      else if Ascii.eqb c backslash then
        match s' with
        | "" => Raise JSONDecodeError
        | String e s'' =>
            if Ascii.eqb e "u"%char then
              match s'' with
              | String h1 (String h2 (String h3 (String h4 rest))) =>
                  match hex4 h1 h2 h3 h4 with
                  | Some n =>
                      if (n <? 256)%nat then
                        p <- scanstring rest ;;
                        Ok (String (ascii_of_nat n) (fst p), snd p)
                      else Raise Unmodelled
                  | None => Raise JSONDecodeError
                  end
              | _ => Raise JSONDecodeError
              end
            else
              match escape_char e with
              | Some a => p <- scanstring s'' ;; Ok (String a (fst p), snd p)
              | None => Raise JSONDecodeError
              end
        end
      else if (nat_of_ascii c <? 32)%nat then Raise JSONDecodeError
      else p <- scanstring s' ;; Ok (String c (fst p), snd p)
  end.

(** The digits at the head of [s], as a number continuing [acc], their
    count continuing [n], and the rest. *)
Fixpoint scan_digits (s : string) (acc : Z) (n : nat) : Z * nat * string :=
  match s with
  | String c s' =>
      if is_digit c then scan_digits s' (acc * 10 + digit_value c)%Z (S n)
      else (acc, n, s)
  | "" => (acc, n, s)
  end.

Definition starts_with_digit (s : string) : bool :=
  match s with String c _ => is_digit c | "" => false end.

(** After the integer part: does a fraction or an exponent follow? *)
Definition float_follows (s : string) : bool :=
  match s with
  | String c s' =>
      if Ascii.eqb c "."%char then starts_with_digit s'
      else if Ascii.eqb c "e"%char || Ascii.eqb c "E"%char then
        match s' with
        | String d s'' =>
            if Ascii.eqb d "+"%char || Ascii.eqb d "-"%char
            then starts_with_digit s'' else is_digit d
        | "" => false
        end
      else false
  | "" => false
  end.

(** The integer part at the head of [s], after an optional sign:
    [0] or a digit from 1 to 9 followed by digits. *)
Definition scan_int (negative : bool) (s : string) : result (value * string) :=
  match s with
  | String c s' =>
      if is_digit c then
        let '(n, k, rest) :=
          if Ascii.eqb c "0"%char then (0%Z, 1%nat, s') else scan_digits s' (digit_value c) 1 in
        if float_follows rest then Raise Unmodelled
        else if (max_int_digits <? k)%nat then Raise ValueError
        else Ok (VInt (if negative then - n else n)%Z, rest)
      else Raise JSONDecodeError
  | "" => Raise JSONDecodeError
  end.

Fixpoint strip_prefix (p s : string) : option string :=
  match p, s with
  | "", _ => Some s
  | String a p', String b s' => if Ascii.eqb a b then strip_prefix p' s' else None
  | String _ _, "" => None
  end.

(** A value that is neither a string nor a container. *)
Definition scan_atom (s : string) : result (value * string) :=
  match strip_prefix "null" s with Some r => Ok (VNone, r) | None =>
  match strip_prefix "true" s with Some r => Ok (VBool true, r) | None =>
  match strip_prefix "false" s with Some r => Ok (VBool false, r) | None =>
  match strip_prefix "NaN" s with Some _ => Raise Unmodelled | None =>
  match strip_prefix "Infinity" s with Some _ => Raise Unmodelled | None =>
  match strip_prefix "-Infinity" s with Some _ => Raise Unmodelled | None =>
  match s with
  | String c s' => if Ascii.eqb c "-"%char then scan_int true s' else scan_int false s
  | "" => Raise JSONDecodeError
  end end end end end end end.

(** [scan_once]: one value at the head of [s].  [parse_array] and
    [parse_object] read the items of a container after its first item has
    been found to exist.  [depth] counts the containers that may still be
    entered; [fuel] bounds the chain of calls: two calls in a row read at
    least one character, so twice the length of the text is enough. *)
Fixpoint scan_once (fuel depth : nat) (s : string) {struct fuel}
  : result (value * string) :=
  match fuel with
  | O => Raise Unmodelled
  | S fuel' =>
      match s with
      | "" => Raise JSONDecodeError
      | String c s' =>
          if Ascii.eqb c dquote then
            p <- scanstring s' ;; Ok (VStr (fst p), snd p)
          else if Ascii.eqb c "{"%char then
            match depth with
            | O => Raise Unmodelled
            | S depth' =>
                match skip_ws s' with
                | String c1 r1 =>
                    if Ascii.eqb c1 "}"%char then Ok (VDict [], r1)
                    else parse_object fuel' depth' (String c1 r1) []
                | "" => Raise JSONDecodeError
                end
            end
          else if Ascii.eqb c "["%char then
            match depth with
            | O => Raise Unmodelled
            | S depth' =>
                match skip_ws s' with
                | String c1 r1 =>
                    if Ascii.eqb c1 "]"%char then Ok (VList [], r1)
                    else parse_array fuel' depth' (String c1 r1) []
                | "" => Raise JSONDecodeError
                end
            end
          else scan_atom s
      end
  end

with parse_array (fuel depth : nat) (s : string) (acc : list value) {struct fuel}
  : result (value * string) :=
  match fuel with
  | O => Raise Unmodelled
  | S fuel' =>
      p <- scan_once fuel' depth s ;;
      let acc' := (acc ++ [fst p])%list in
      match skip_ws (snd p) with
      | String c r =>
          if Ascii.eqb c "]"%char then Ok (VList acc', r)
          else if Ascii.eqb c ","%char then parse_array fuel' depth (skip_ws r) acc'
          else Raise JSONDecodeError
      | "" => Raise JSONDecodeError
      end
  end

with parse_object (fuel depth : nat) (s : string) (acc : list (string * value))
  {struct fuel} : result (value * string) :=
  match fuel with
  | O => Raise Unmodelled
  | S fuel' =>
      match s with
      | String q s' =>
          if Ascii.eqb q dquote then
            k <- scanstring s' ;;
            match skip_ws (snd k) with
            | String colon r =>
                if Ascii.eqb colon ":"%char then
                  p <- scan_once fuel' depth (skip_ws r) ;;
                  let acc' := dict_set acc (fst k) (fst p) in
                  match skip_ws (snd p) with
                  | String c r' =>
                      if Ascii.eqb c "}"%char then Ok (VDict acc', r')
                      else if Ascii.eqb c ","%char
                      then parse_object fuel' depth (skip_ws r') acc'
                      else Raise JSONDecodeError
                  | "" => Raise JSONDecodeError
                  end
                else Raise JSONDecodeError
            | "" => Raise JSONDecodeError
            end
          else Raise JSONDecodeError
      | "" => Raise JSONDecodeError
      end
  end.

(** [json.loads(s)]: one value, with blanks around it and nothing else. *)
Definition json_loads (s : string) : result value :=
  p <- scan_once (2 * String.length s + 2) max_depth (skip_ws s) ;;
  match skip_ws (snd p) with
  | "" => Ok (fst p)
  | String _ _ => Raise JSONDecodeError
  end.

(** JSON text is written below with a single quote where it has a double
    quote; [json_text] puts the double quotes back. *)
Fixpoint json_text (s : string) : string :=
  match s with
  | "" => ""
  | String c s' => String (if Ascii.eqb c squote then dquote else c) (json_text s')
  end.

(** Sample lines.  Scenario A of the specification: *)
Definition scenario_A_line : string :=
  json_text
    ("{'reason':'compiler-message','message':{'level':'error',"
     ++ "'message':'mismatched types',"
     ++ "'spans':[{'file_name':'src/main.rs','line_start':10}]}}")
  ++ String newline "".

(** A JSON array, a record whose [spans] is a number, and text that is no
    JSON. *)
Definition array_line : string := "[1, 2]" ++ String newline "".


Definition not_json_line : string := "not json" ++ String newline "".

(** A warning that names no file, no line and no text, twice the same
    warning, and a record whose [spans] is [null]. *)
Definition bare_warning_line : string :=
  json_text "{'reason':'compiler-message','message':{'level':'warning','spans':[{}]}}"
  ++ String newline "".

Definition unused_warning_line : string :=
  json_text
    ("{'reason':'compiler-message','message':{'level':'warning',"
     ++ "'message':'unused variable',"
     ++ "'spans':[{'file_name':'src/lib.rs','line_start':3}]}}")
  ++ String newline "".

Definition null_spans_line : string :=
  json_text "{'reason':'compiler-message','message':{'level':'error','spans':null}}"
  ++ String newline "".

(** Scenario C of the specification, a note, a record whose [message] is a
    text, and records whose [spans] is an object or a text. *)
Definition build_finished_line : string :=
  json_text "{'reason':'build-finished'}" ++ String newline "".

Definition note_line : string :=
  json_text "{'reason':'compiler-message','message':{'level':'note','spans':5}}"
  ++ String newline "".

Definition text_message_line : string :=
  json_text "{'reason':'compiler-message','message':'mismatched types'}"
  ++ String newline "".

Definition object_spans_line : string :=
  json_text
    "{'reason':'compiler-message','message':{'level':'warning','spans':{'a':1}}}"
  ++ String newline "".

(** Text made of blanks only, as [str.isspace] has them. *)
Fixpoint all_space (s : string) : bool :=
  match s with
  | "" => true
  | String c s' => isspace c && all_space s'
  end.

(** The exception a truthy [spans] that is no list starting with a mapping
    ends in: [spans[0]] fails on a number, a boolean or a float
    ([TypeError]) and on an object ([KeyError]); on a text or a list it
    succeeds and the lookup on its result fails ([AttributeError]). *)
Definition spans_exception (spans : value) : exn :=
  match spans with
  | VDict _ => KeyError
  | VList _ | VStr _ => AttributeError
  | _ => TypeError
  end.

(** A record whose first span is a number, a record whose message has a
    line break, a record whose message has a letter outside ASCII, and an
    integer literal of 4301 digits followed by text that is no JSON. *)
Definition number_span_line : string :=
  json_text "{'reason':'compiler-message','message':{'level':'error','spans':[5]}}"
  ++ String newline "".

Definition two_line_message_line : string :=
  json_text
    ("{'reason':'compiler-message','message':{'level':'error',"
     ++ "'message':'z\na','spans':[{}]}}")
  ++ String newline "".

Definition accent_message_line : string :=
  json_text
    ("{'reason':'compiler-message','message':{'level':'warning',"
     ++ "'message':'caf\u00e9','spans':[{}]}}")
  ++ String newline "".

Fixpoint repeat_char (c : ascii) (n : nat) : string :=
  match n with
  | O => ""
  | S n' => String c (repeat_char c n')
  end.

Definition long_integer_line : string :=
  repeat_char "1" 4301 ++ " x" ++ String newline "".

(** ** Shapes and counts used in the statements *)

(** The first element of [spans] is usable: [spans] is falsy, or a list
    that starts with a mapping. *)
Definition spans_shaped (spans : value) : bool :=
  negb (truthy spans)
  || match spans with VList (VDict _ :: _) => true | _ => false end.




(** The lines that are decoded with success. *)
Definition decoded (loads : string -> result value) (line : string) : bool :=
  negb (String.eqb (strip line) "") && is_ok (loads (strip line)).

Definition decoded_count (loads : string -> result value) (stdin : list string) : nat :=
  List.length (filter (decoded loads) stdin).

(** The entries printed for the final state [st]. *)
Definition printed_entries (set_of : set_iteration) (st : state) : list string :=
  (sorted (set_of (errors st)) ++ sorted (set_of (warnings st)))%list.

(** What one line contributes, whatever the state: nothing, an entry with
    its level, or the exception that ends the run. *)
Definition line_entry (loads : string -> result value) (line : string)
  : result (option (value * string)) :=
  if String.eqb (strip line) "" then Ok None
  else
    match loads (strip line) with
    | Ok data => diagnostic data
    | Raise JSONDecodeError => Ok None
    | Raise e => Raise e
    end.

(** The text [str()] gives for a decoded value, case by case: a text as it
    is, an integer in decimal, [None], [True], [False], the [repr] of a
    float, and the [repr] of a list or a dict. *)
Definition rendered (v : value) : string :=
  match v with
  | VStr s => s
  | VInt n => NilZero.string_of_int (Z.to_int n)
  | VNone => "None"
  | VBool true => "True"
  | VBool false => "False"
  | VFloat f => float_repr f
  | VList _ | VDict _ => py_repr v
  end.

(** The text of a field of a mapping: the one of its value, or [default]
    when the field is missing. *)
Definition field_text (d : list (string * value)) (key default : string) : string :=
  match dict_lookup d key with
  | Some v => rendered v
  | None => default
  end.

(** The text of a list of entries, each followed by a newline. *)
Definition entry_lines (l : list string) : string :=
  fold_right (fun e out => e ++ String "010" out) "" l.

(** The lines of a text: what stands before each newline. *)
Fixpoint splitlines_from (current : string) (s : string) : list string :=
  match s with
  | "" => match current with "" => [] | _ => [current] end
  | String c s' =>
      if Ascii.eqb c "010"
      then current :: splitlines_from "" s'
      else splitlines_from (current ++ String c "") s'
  end.

Definition splitlines (s : string) : list string := splitlines_from "" s.

(** Text of ASCII characters only. *)
Fixpoint all_ascii (s : string) : bool :=
  match s with
  | "" => true
  | String c s' => (nat_of_ascii c <? 128)%nat && all_ascii s'
  end.


(** ** Order on strings and [sorted] *)

Lemma str_ltb_lt (a b : string) : str_ltb a b = true <-> str_lt a b.
Proof.
  unfold str_ltb, str_lt, String_as_OT.lt.
  destruct (String_as_OT.compare a b); split; intro H; congruence.
Qed.

Lemma str_ltb_ge (a b : string) : str_ltb a b = false -> a = b \/ str_lt b a.
Proof.
  unfold str_ltb, str_lt.
  destruct (String_as_OT.compare_spec a b) as [E | L | G]; intro H.
  - now left.
  - discriminate.
  - now right.
Qed.

Lemma str_lt_irrefl (a : string) : ~ str_lt a a.
Proof. apply (StrictOrder_Irreflexive (R := String_as_OT.lt)). Qed.

Lemma str_lt_trans (a b c : string) : str_lt a b -> str_lt b c -> str_lt a c.
Proof. apply (StrictOrder_Transitive (R := String_as_OT.lt)). Qed.

Lemma insert_sorted_In (x y : string) (l : list string) :
  In y (insert_sorted x l) <-> y = x \/ In y l.
Proof.
  induction l as [| z l IH]; simpl.
  - intuition congruence.
  - destruct (str_ltb z x); simpl; rewrite ?IH; intuition congruence.
Qed.

Lemma insert_sorted_length (x : string) (l : list string) :
  List.length (insert_sorted x l) = S (List.length l).
Proof.
  induction l as [| z l IH]; simpl; [reflexivity |].
  destruct (str_ltb z x); simpl; [now rewrite IH | reflexivity].
Qed.

Lemma sorted_In (x : string) (l : list string) : In x (sorted l) <-> In x l.
Proof.
  induction l as [| y l IH]; simpl; [tauto |].
  rewrite insert_sorted_In, IH. intuition congruence.
Qed.

Lemma sorted_length (l : list string) : List.length (sorted l) = List.length l.
Proof.
  induction l as [| y l IH]; simpl; [reflexivity |].
  now rewrite insert_sorted_length, IH.
Qed.

Lemma insert_sorted_strict (x : string) (l : list string) :
  StronglySorted str_lt l -> ~ In x l -> StronglySorted str_lt (insert_sorted x l).
Proof.
  induction 1 as [| z l Hl IH Hz]; intro Hx; simpl.
  - constructor; constructor.
  - destruct (str_ltb z x) eqn:E.
    + constructor.
      * apply IH. intro; apply Hx; now right.
      * apply Forall_forall. intros y Hy.
        apply insert_sorted_In in Hy. destruct Hy as [-> | Hy].
        -- now apply str_ltb_lt.
        -- rewrite Forall_forall in Hz. now apply Hz.
    + assert (Hxz : str_lt x z).
      { destruct (str_ltb_ge _ _ E) as [-> | L]; [| exact L].
        exfalso; apply Hx; now left. }
      constructor.
      * now constructor.
      * constructor; [exact Hxz |].
        rewrite Forall_forall in *. intros y Hy.
        eapply str_lt_trans; [exact Hxz | now apply Hz].
Qed.

Lemma sorted_strict (l : list string) : NoDup l -> StronglySorted str_lt (sorted l).
Proof.
  induction 1 as [| x l Hx Hl IH]; simpl.
  - constructor.
  - apply insert_sorted_strict; [exact IH |].
    now rewrite sorted_In.
Qed.

(** A strictly ascending list is determined by its members. *)
Lemma strict_sorted_unique (l1 l2 : list string) :
  StronglySorted str_lt l1 -> StronglySorted str_lt l2 ->
  (forall x, In x l1 <-> In x l2) -> l1 = l2.
Proof.
  intro H1. revert l2.
  induction H1 as [| a l1 Hl1 IH Ha]; intros l2 H2 Hin.
  - destruct l2 as [| b l2]; [reflexivity |].
    exfalso. apply (Hin b). now left.
  - destruct H2 as [| b l2 Hl2 Hb].
    + exfalso. apply (Hin a). now left.
    + rewrite Forall_forall in Ha, Hb.
      assert (Hab : a = b).
      { destruct (proj1 (Hin a) (or_introl eq_refl)) as [E | Ia]; [now symmetry |].
        destruct (proj2 (Hin b) (or_introl eq_refl)) as [E | Ib]; [exact E |].
        exfalso. apply (str_lt_irrefl (a := a)).
        eapply str_lt_trans; [apply Ha, Ib | apply Hb, Ia]. }
      subst b. f_equal. apply IH; [exact Hl2 |].
      intro x. split; intro Hx.
      * destruct (proj1 (Hin x) (or_intror Hx)) as [E | I]; [| exact I].
        subst x. exfalso. exact (str_lt_irrefl (Ha a Hx)).
      * destruct (proj2 (Hin x) (or_intror Hx)) as [E | I]; [| exact I].
        subst x. exfalso. exact (str_lt_irrefl (Hb a Hx)).
Qed.

(** [sorted(set(l))] depends on the members of [l] only, not on the order
    the set is iterated in. *)
Lemma sorted_set_ext (h1 h2 : set_iteration) (l1 l2 : list string) :
  (forall x, In x l1 <-> In x l2) -> sorted (h1 l1) = sorted (h2 l2).
Proof.
  intro H. apply strict_sorted_unique.
  - apply sorted_strict, set_iter_NoDup.
  - apply sorted_strict, set_iter_NoDup.
  - intro x. rewrite !sorted_In, !set_iter_In. apply H.
Qed.

Lemma sorted_set_length (h : set_iteration) (l : list string) :
  List.length (sorted (h l)) <= List.length l.
Proof.
  rewrite sorted_length. apply NoDup_incl_length.
  - apply set_iter_NoDup.
  - intros x Hx. now apply set_iter_In in Hx.
Qed.

(** ** The loop, line by line *)

Ltac case_if :=
  match goal with
  | |- context [if ?b then _ else _] => destruct b eqn:?
  end.

Lemma diagnostic_never_decode_error (data : value) :
  diagnostic data <> Raise JSONDecodeError.
Proof.
  unfold diagnostic.
  destruct data; simpl; try discriminate.
  case_if; [| discriminate].
  destruct (dict_get d "message" _); simpl; try discriminate.
  case_if; [| discriminate].
  destruct (dict_get d0 "spans" _) as [| b | n | f | s | l | d1]; simpl;
    try discriminate.
  - destruct b; discriminate.
  - destruct (Z.eqb n 0); discriminate.
  - destruct (float_bool f); discriminate.
  - destruct s; simpl; discriminate.
  - destruct l as [| x l]; simpl; [discriminate |].
    destruct x; simpl; discriminate.
  - destruct d1; discriminate.
Qed.


Section Loop.

Variable loads : string -> result value.

Lemma loop_body_line_entry (st : state) (line : string) :
  loop_body loads st line =
  d <- line_entry loads line ;;
  Ok (match d with
      | Some (level, entry) => append_entry st level entry
      | None => st
      end).
Proof.
  unfold loop_body, line_entry.
  destruct (String.eqb (strip line) ""); [reflexivity |].
  destruct (loads (strip line)) as [data | e]; simpl.
  - pose proof (diagnostic_never_decode_error data) as N.
    destruct (diagnostic data) as [[[level entry] |] | e]; simpl; try reflexivity.
    destruct e; try reflexivity. congruence.
  - destruct e; reflexivity.
Qed.

Lemma for_lines_app (st : state) (l1 l2 : list string) :
  for_lines loads st (l1 ++ l2) = st' <- for_lines loads st l1 ;; for_lines loads st' l2.
Proof.
  revert st. induction l1 as [| line l1 IH]; intro st; simpl; [reflexivity |].
  destruct (loop_body loads st line) as [st1 | e]; simpl; [apply IH | reflexivity].
Qed.

Lemma for_lines_ok (st : state) (stdin : list string) :
  is_ok (for_lines loads st stdin)
  = forallb (fun line => is_ok (line_entry loads line)) stdin.
Proof.
  revert st. induction stdin as [| line rest IH]; intro st; simpl; [reflexivity |].
  rewrite loop_body_line_entry.
  destruct (line_entry loads line) as [d | e]; simpl; [apply IH | reflexivity].
Qed.


Lemma line_entry_some_decoded (line : string) (level : value) (entry : string) :
  line_entry loads line = Ok (Some (level, entry)) -> decoded loads line = true.
Proof.
  unfold line_entry, decoded.
  destruct (String.eqb (strip line) ""); [discriminate |].
  destruct (loads (strip line)) as [data | e]; [reflexivity |].
  destruct e; discriminate.
Qed.

Lemma append_entry_errors (st : state) (level : value) (entry x : string) :
  In x (errors (append_entry st level entry)) <->
  In x (errors st) \/ (x = entry /\ py_eq_str level "error" = true).
Proof.
  unfold append_entry. destruct (py_eq_str level "error"); simpl.
  - rewrite in_app_iff. simpl. intuition congruence.
  - intuition congruence.
Qed.

Lemma append_entry_warnings (st : state) (level : value) (entry x : string) :
  In x (warnings (append_entry st level entry)) <->
  In x (warnings st) \/ (x = entry /\ py_eq_str level "error" = false).
Proof.
  unfold append_entry. destruct (py_eq_str level "error"); simpl.
  - intuition congruence.
  - rewrite in_app_iff. simpl. intuition congruence.
Qed.

Lemma append_entry_length (st : state) (level : value) (entry : string) :
  List.length (errors (append_entry st level entry))
  + List.length (warnings (append_entry st level entry))
  = S (List.length (errors st) + List.length (warnings st)).
Proof.
  unfold append_entry. destruct (py_eq_str level "error"); simpl;
    rewrite length_app; simpl; lia.
Qed.

(** The members of the two accumulators after the loop. *)
Lemma for_lines_errors (stdin : list string) (st st' : state) (x : string) :
  for_lines loads st stdin = Ok st' ->
  (In x (errors st') <->
   In x (errors st)
   \/ exists line level, In line stdin
        /\ line_entry loads line = Ok (Some (level, x))
        /\ py_eq_str level "error" = true).
Proof.
  revert st. induction stdin as [| line rest IH]; intros st H; simpl in H.
  - injection H as <-. split; [tauto |].
    intros [I | (line & level & [] & _)]. exact I.
  - rewrite loop_body_line_entry in H.
    destruct (line_entry loads line) as [d | e] eqn:E; simpl in H; [| discriminate].
    rewrite (IH _ H). clear IH H.
    destruct d as [[level entry] |].
    + rewrite append_entry_errors. split.
      * intros [[I | [-> L]] | (l & lv & I & P & L)].
        -- now left.
        -- right. exists line, level. simpl; auto.
        -- right. exists l, lv. simpl; auto.
      * intros [I | (l & lv & [<- | I] & P & L)].
        -- now left; left.
        -- rewrite E in P. injection P as <- <-. left; right. auto.
        -- right. now exists l, lv.
    + split.
      * intros [I | (l & lv & I & P & L)]; [now left |].
        right. exists l, lv. simpl; auto.
      * intros [I | (l & lv & [<- | I] & P & L)]; [now left | congruence |].
        right. now exists l, lv.
Qed.

Lemma for_lines_warnings (stdin : list string) (st st' : state) (x : string) :
  for_lines loads st stdin = Ok st' ->
  (In x (warnings st') <->
   In x (warnings st)
   \/ exists line level, In line stdin
        /\ line_entry loads line = Ok (Some (level, x))
        /\ py_eq_str level "error" = false).
Proof.
  revert st. induction stdin as [| line rest IH]; intros st H; simpl in H.
  - injection H as <-. split; [tauto |].
    intros [I | (line & level & [] & _)]. exact I.
  - rewrite loop_body_line_entry in H.
    destruct (line_entry loads line) as [d | e] eqn:E; simpl in H; [| discriminate].
    rewrite (IH _ H). clear IH H.
    destruct d as [[level entry] |].
    + rewrite append_entry_warnings. split.
      * intros [[I | [-> L]] | (l & lv & I & P & L)].
        -- now left.
        -- right. exists line, level. simpl; auto.
        -- right. exists l, lv. simpl; auto.
      * intros [I | (l & lv & [<- | I] & P & L)].
        -- now left; left.
        -- rewrite E in P. injection P as <- <-. left; right. auto.
        -- right. now exists l, lv.
    + split.
      * intros [I | (l & lv & I & P & L)]; [now left |].
        right. exists l, lv. simpl; auto.
      * intros [I | (l & lv & [<- | I] & P & L)]; [now left | congruence |].
        right. now exists l, lv.
Qed.

(** Each entry in an accumulator comes from a decoded line of its own. *)
Lemma for_lines_length (stdin : list string) (st st' : state) :
  for_lines loads st stdin = Ok st' ->
  List.length (errors st') + List.length (warnings st')
  <= List.length (errors st) + List.length (warnings st) + decoded_count loads stdin.
Proof.
  unfold decoded_count.
  revert st. induction stdin as [| line rest IH]; intros st H; simpl in H.
  - injection H as <-. simpl. lia.
  - rewrite loop_body_line_entry in H.
    destruct (line_entry loads line) as [d | e] eqn:E; simpl in H; [| discriminate].
    apply IH in H. simpl.
    destruct d as [[level entry] |].
    + rewrite (line_entry_some_decoded _ E). simpl.
      rewrite append_entry_length in H. lia.
    + destruct (decoded loads line); simpl; lia.
Qed.

End Loop.

(** ** Records and their entries *)

Lemma py_in_levels (level : value) :
  py_in level ["error"; "warning"] = true ->
  level = VStr "error" \/ level = VStr "warning".
Proof.
  unfold py_in. simpl. destruct level; simpl; try discriminate.
  destruct (String.eqb_spec s "error") as [-> | _]; [now left |].
  destruct (String.eqb_spec s "warning") as [-> | _]; [now right |].
  discriminate.
Qed.

Lemma dict_get_lookup (d : list (string * value)) (key : string) (v : value) :
  dict_lookup d key = Some v -> forall default, dict_get d key default = v.
Proof. intros H default. unfold dict_get. now rewrite H. Qed.

Lemma dict_get_found (d : list (string * value)) (key : string) (default v : value) :
  dict_get d key default = v -> v <> default -> dict_lookup d key = Some v.
Proof.
  unfold dict_get. destruct (dict_lookup d key); intros <- N; congruence.
Qed.

(** What a record that yields an entry looks like. *)
Lemma diagnostic_some_inv (data level : value) (entry : string) :
  diagnostic data = Ok (Some (level, entry)) ->
  exists d m span rest,
    data = VDict d
    /\ dict_lookup d "reason" = Some (VStr "compiler-message")
    /\ dict_lookup d "message" = Some (VDict m)
    /\ dict_lookup m "level" = Some level
    /\ (level = VStr "error" \/ level = VStr "warning")
    /\ dict_lookup m "spans" = Some (VList (span :: rest)).
Proof.
  unfold diagnostic.
  destruct data as [| | | | | | d]; cbn [py_get bind]; try discriminate.
  remember (dict_get d "reason" VNone) as reason eqn:R.
  destruct reason as [| | | | r | |]; cbn [py_eq_str]; try discriminate.
  destruct (String.eqb_spec r "compiler-message") as [-> | _]; [| discriminate].
  remember (dict_get d "message" (VDict [])) as msg eqn:M.
  destruct msg as [| | | | | | m]; cbn [py_get bind]; try discriminate.
  remember (dict_get m "level" VNone) as lv eqn:L.
  destruct (py_in lv ["error"; "warning"]) eqn:P; [| discriminate].
  apply py_in_levels in P.
  remember (dict_get m "spans" (VList [])) as spans eqn:S.
  destruct (truthy spans); [| discriminate].
  destruct spans as [| | | | s | l |]; cbn [py_getitem0 bind]; try discriminate.
  - destruct s; cbn [py_get bind]; discriminate.
  - destruct l as [| span rest]; cbn [bind]; [discriminate |].
    destruct span; cbn [py_get bind]; try discriminate.
    intro H. injection H as <- _.
    symmetry in R, M, L, S.
    apply dict_get_found in R; [| discriminate].
    apply dict_get_found in L; [| destruct P; congruence].
    apply dict_get_found in S; [| discriminate].
    apply dict_get_found in M; [| intro E; injection E as ->; discriminate].
    now exists d, m, (VDict d0), rest.
Qed.

(** C3: an entry is appended to [errors] or [warnings] by a turn of the
    loop only if the line decodes to a record whose [reason] is the string
    "compiler-message", whose [level] is "error" or "warning" and whose
    [spans] is a non-empty sequence; a record failing one of the three
    leaves both collections as they are. *)
Theorem entry_only_if_compiler_message
  (loads : string -> result value) (st st' : state) (line : string) :
  loop_body loads st line = Ok st' ->
  st' <> st ->
  exists d m level span rest,
    loads (strip line) = Ok (VDict d)
    /\ dict_lookup d "reason" = Some (VStr "compiler-message")
    /\ dict_lookup d "message" = Some (VDict m)
    /\ dict_lookup m "level" = Some (VStr level)
    /\ (level = "error" \/ level = "warning")
    /\ dict_lookup m "spans" = Some (VList (span :: rest)).
Proof.
  rewrite loop_body_line_entry.
  destruct (line_entry loads line) as [[[level entry] |] | e] eqn:E; simpl;
    intros H N; try congruence.
  clear H N. unfold line_entry in E.
  destruct (String.eqb (strip line) ""); [discriminate |].
  destruct (loads (strip line)) as [data | e]; [| destruct e; discriminate].
  apply diagnostic_some_inv in E.
  destruct E as (d & m & span & rest & -> & R & M & L & [-> | ->] & S).
  - exists d, m, "error", span, rest. auto 10.
  - exists d, m, "warning", span, rest. auto 10.
Qed.

Lemma entry_only_if_compiler_message_witness :
  exists d m level span rest,
    json_loads (strip scenario_A_line) = Ok (VDict d)
    /\ dict_lookup d "reason" = Some (VStr "compiler-message")
    /\ dict_lookup d "message" = Some (VDict m)
    /\ dict_lookup m "level" = Some (VStr level)
    /\ (level = "error" \/ level = "warning")
    /\ dict_lookup m "spans" = Some (VList (span :: rest)).
Proof.
  apply (@entry_only_if_compiler_message json_loads initial
           {| errors := ["error|src/main.rs:10|mismatched types"]; warnings := [] |}
           scenario_A_line).
  - vm_compute. reflexivity.
  - discriminate.
Defined.


Lemma py_str_rendered (v : value) : py_str v = rendered v.
Proof. destruct v as [| [|] | | | | |]; reflexivity. Qed.

(** C4 (amended): for a qualifying record whose first span is a mapping, the
    entry is [level|file_name:line_start|message], read from the first
    element of [spans] whatever follows it; each field is written as [str()]
    writes it (a text as it is, an integer in decimal, [None], [True],
    [False]); a missing [file_name] gives "unknown", a missing [line_start]
    gives "0" and a missing [message] gives the empty text. *)
Theorem entry_format_first_span
  (d m sd : list (string * value)) (level : string) (rest : list value) :
  dict_lookup d "reason" = Some (VStr "compiler-message") ->
  dict_lookup d "message" = Some (VDict m) ->
  dict_lookup m "level" = Some (VStr level) ->
  level = "error" \/ level = "warning" ->
  dict_lookup m "spans" = Some (VList (VDict sd :: rest)) ->
  diagnostic (VDict d) =
  Ok (Some (VStr level,
            level ++ "|" ++ field_text sd "file_name" "unknown"
              ++ ":" ++ field_text sd "line_start" "0"
              ++ "|" ++ field_text m "message" "")).
Proof.
  intros R M L Lv S.
  assert (P : py_in (VStr level) ["error"; "warning"] = true)
    by (destruct Lv as [-> | ->]; reflexivity).
  unfold diagnostic. cbn [py_get bind].
  rewrite (dict_get_lookup _ _ R). cbn [py_eq_str]. rewrite String.eqb_refl.
  rewrite (dict_get_lookup _ _ M). cbn [py_get bind].
  rewrite (dict_get_lookup _ _ L), P.
  rewrite (dict_get_lookup _ _ S). cbn [truthy py_getitem0 py_get bind].
  unfold format_entry, field_text, dict_get.
  rewrite !py_str_rendered.
  destruct (dict_lookup sd "file_name"), (dict_lookup sd "line_start"),
    (dict_lookup m "message"); reflexivity.
Qed.

Lemma entry_format_first_span_witness :
  diagnostic
    (VDict [("reason", VStr "compiler-message");
            ("message",
             VDict [("level", VStr "warning");
                    ("spans",
                     VList [VDict [("line_start", VInt 10);
                                   ("file_name",
                                    VList [VStr "a"; VNone; VBool true])];
                            VInt 7])])])
  = Ok (Some (VStr "warning", "warning|['a', None, True]:10|")).
Proof.
  exact (@entry_format_first_span
           [("reason", VStr "compiler-message");
            ("message",
             VDict [("level", VStr "warning");
                    ("spans",
                     VList [VDict [("line_start", VInt 10);
                                   ("file_name",
                                    VList [VStr "a"; VNone; VBool true])];
                            VInt 7])])]
           [("level", VStr "warning");
            ("spans",
             VList [VDict [("line_start", VInt 10);
                           ("file_name", VList [VStr "a"; VNone; VBool true])];
                    VInt 7])]
           [("line_start", VInt 10);
            ("file_name", VList [VStr "a"; VNone; VBool true])]
           "warning" [VInt 7]
           eq_refl eq_refl eq_refl (or_intror eq_refl) eq_refl).
Defined.

(** The claim as stated fails on a qualifying record whose first span is a
    number: [span.get] raises [AttributeError] and no entry is composed. *)
Lemma entry_format_counterexample :
  json_loads (strip number_span_line)
  = Ok (VDict [("reason", VStr "compiler-message");
               ("message", VDict [("level", VStr "error");
                                  ("spans", VList [VInt 5])])])
  /\ diagnostic
       (VDict [("reason", VStr "compiler-message");
               ("message", VDict [("level", VStr "error");
                                  ("spans", VList [VInt 5])])])
     = Raise AttributeError
  /\ loop_body json_loads initial number_span_line = Raise AttributeError.
Proof. vm_compute. repeat split. Qed.

(** ** The prints *)

Lemma append_cons_assoc (s t : string) (c : ascii) :
  (s ++ String c "") ++ t = s ++ String c t.
Proof. induction s as [| a s IH]; simpl; [reflexivity | now rewrite IH]. Qed.

Lemma append_assoc (s t u : string) : (s ++ t) ++ u = s ++ (t ++ u).
Proof. induction s as [| a s IH]; simpl; [reflexivity | now rewrite IH]. Qed.

Lemma entry_lines_app (l1 l2 : list string) :
  entry_lines (l1 ++ l2) = entry_lines l1 ++ entry_lines l2.
Proof.
  induction l1 as [| e l1 IH]; simpl; [reflexivity |].
  rewrite IH. now rewrite append_assoc.
Qed.

Lemma all_ascii_encodable (enc : stdout_encoding) (s : string) :
  all_ascii s = true -> encodable enc s = true.
Proof.
  induction s as [| c s IH]; simpl; [reflexivity |].
  intro H. apply andb_prop in H. destruct H as [C S].
  apply Nat.ltb_lt in C. rewrite (encodes_ascii enc c C). now apply IH.
Qed.

Lemma print_each_raised (enc : stdout_encoding) (l : list string) :
  snd (print_each enc l) = None \/ snd (print_each enc l) = Some UnicodeEncodeError.
Proof.
  induction l as [| s l IH]; simpl; [now left |].
  destruct (encodable enc s); [| now right].
  destruct (print_each enc l) as [out r]. exact IH.
Qed.

Lemma print_each_all (enc : stdout_encoding) (l : list string) :
  forallb (encodable enc) l = true -> print_each enc l = (entry_lines l, None).
Proof.
  induction l as [| s l IH]; simpl; [reflexivity |].
  intro H. apply andb_prop in H. destruct H as [S L].
  rewrite S, (IH L). unfold print. now rewrite append_cons_assoc.
Qed.



Lemma prints_encodable (enc : stdout_encoding) (set_of : set_iteration) (st : state) :
  forallb (encodable enc) (prints set_of st) = true <->
  forall x, In x (errors st) \/ In x (warnings st) -> encodable enc x = true.
Proof.
  unfold prints. rewrite forallb_forall. split.
  - intros H x I. apply H. simpl. right. rewrite in_app_iff. simpl.
    rewrite !sorted_In, !set_iter_In. tauto.
  - intros H x I. simpl in I. rewrite in_app_iff in I. simpl in I.
    rewrite !sorted_In, !set_iter_In in I.
    destruct I as [<- | [I | [<- | I]]]; auto;
      now apply all_ascii_encodable.
Qed.

(** The text of the output when every [print] succeeds. *)
Lemma output_all (enc : stdout_encoding) (set_of : set_iteration) (st : state) :
  (forall x, In x (errors st) \/ In x (warnings st) -> encodable enc x = true) ->
  output set_of enc st
  = ("=== ERRORS ===
" ++ entry_lines (sorted (set_of (errors st))) ++ "
=== WARNINGS ===
" ++ entry_lines (sorted (set_of (warnings st))), None).
Proof.
  intro H. apply (prints_encodable enc set_of) in H.
  unfold output. rewrite (print_each_all _ _ H).
  unfold prints. cbn [app entry_lines fold_right].
  change (fold_right (fun e out => e ++ String "010" out) "") with entry_lines.
  rewrite entry_lines_app. cbn [entry_lines fold_right].
  change (fold_right (fun e out => e ++ String "010" out) "") with entry_lines.
  reflexivity.
Qed.

(** The output is the same for two states with the same members, whatever
    the iteration orders of the sets. *)
Lemma output_ext (enc : stdout_encoding) (order1 order2 : set_iteration)
  (st st' : state) :
  (forall x, In x (errors st) <-> In x (errors st')) ->
  (forall x, In x (warnings st) <-> In x (warnings st')) ->
  output order1 enc st = output order2 enc st'.
Proof.
  intros E W. unfold output, prints.
  now rewrite (sorted_set_ext order1 order2 _ _ E),
    (sorted_set_ext order1 order2 _ _ W).
Qed.

(** ** Where the entries come from *)

Lemma line_entry_some_diagnostic
  (loads : string -> result value) (line : string) (p : value * string) :
  line_entry loads line = Ok (Some p) ->
  exists data, loads (strip line) = Ok data /\ diagnostic data = Ok (Some p).
Proof.
  unfold line_entry.
  destruct (String.eqb (strip line) ""); [discriminate |].
  destruct (loads (strip line)) as [data | e]; [| destruct e; discriminate].
  intro H. now exists data.
Qed.






(** ** Lines that end the run *)

(** C1 (amended): a line that decodes to a value that is no mapping makes
    the first lookup, [data.get('reason')], raise [AttributeError], which
    the handler of JSON decode errors lets through: when the lines before it
    were read without an exception, the run ends at that line with this
    exception, exit status 1 and nothing on standard output; the lines after
    it are not read. *)
Theorem non_mapping_line_ends_run
  (loads : string -> result value) (set_of : set_iteration)
  (enc : stdout_encoding)
  (before after : list string) (line : string) (data : value) (st : state) :
  strip line <> "" ->
  loads (strip line) = Ok data ->
  is_dict data = false ->
  for_lines loads initial before = Ok st ->
  loop_body loads st line = Raise AttributeError
  /\ main loads set_of enc (before ++ line :: after) = Raise AttributeError
  /\ run loads set_of enc (before ++ line :: after)
     = {| stdout := ""; exit_status := 1 |}.
Proof.
  intros NE L D B.
  assert (LB : loop_body loads st line = Raise AttributeError).
  { unfold loop_body. apply String.eqb_neq in NE. rewrite NE, L.
    destruct data; try discriminate; reflexivity. }
  assert (F : for_lines loads initial (before ++ line :: after)
              = Raise AttributeError).
  { rewrite for_lines_app, B. simpl. now rewrite LB. }
  repeat split; try assumption.
  - unfold main. now rewrite F.
  - unfold run. now rewrite F.
Qed.

Lemma non_mapping_line_ends_run_witness :
  loop_body json_loads
    {| errors := ["error|src/main.rs:10|mismatched types"]; warnings := [] |}
    array_line = Raise AttributeError
  /\ main json_loads insertion_order utf_8
       ([scenario_A_line] ++ array_line :: [unused_warning_line])
     = Raise AttributeError
  /\ run json_loads insertion_order utf_8
       ([scenario_A_line] ++ array_line :: [unused_warning_line])
     = {| stdout := ""; exit_status := 1 |}.
Proof.
  apply (@non_mapping_line_ends_run json_loads insertion_order utf_8
           [scenario_A_line] [unused_warning_line] array_line
           (VList [VInt 1; VInt 2])).
  - discriminate.
  - vm_compute. reflexivity.
  - reflexivity.
  - vm_compute. reflexivity.
Defined.

(** The claim as stated fails on a JSON array: the line decodes, the run
    ends with [AttributeError], and the entry of the line after it, which
    the script prints when given that line alone, is never printed. *)
Lemma non_mapping_line_counterexample :
  json_loads (strip array_line) = Ok (VList [VInt 1; VInt 2])
  /\ main json_loads insertion_order utf_8 [scenario_A_line]
     = Ok "=== ERRORS ===
error|src/main.rs:10|mismatched types

=== WARNINGS ===
"
  /\ main json_loads insertion_order utf_8 [array_line; scenario_A_line]
     = Raise AttributeError
  /\ run json_loads insertion_order utf_8 [array_line; scenario_A_line]
     = {| stdout := ""; exit_status := 1 |}.
Proof. vm_compute. repeat split. Qed.



(** ** The output *)

Lemma strict_sorted_NoDup (l : list string) : StronglySorted str_lt l -> NoDup l.
Proof.
  induction 1 as [| a l Hl IH Ha]; constructor; [| exact IH].
  intro I. rewrite Forall_forall in Ha.
  exact (str_lt_irrefl (Ha a I)).
Qed.

Lemma sorted_set_spec (set_of : set_iteration) (l : list string) :
  StronglySorted str_lt (sorted (set_of l))
  /\ NoDup (sorted (set_of l))
  /\ (forall x, In x (sorted (set_of l)) <-> In x l).
Proof.
  assert (S : StronglySorted str_lt (sorted (set_of l)))
    by apply sorted_strict, set_iter_NoDup.
  repeat split.
  - exact S.
  - now apply strict_sorted_NoDup.
  - rewrite sorted_In. apply set_iter_In.
  - rewrite sorted_In. apply set_iter_In.
Qed.

(** C5 (amended): when the loop has ended with the collections [errors]
    and [warnings] and every entry can be encoded for standard output, the
    output is the line [=== ERRORS ===], the entries of [errors], an empty
    line, the line [=== WARNINGS ===] and the entries of [warnings]; in each
    section every entry is followed by a newline, the entries are in
    strictly ascending order as strings, so without duplicates, and are
    exactly the members of the collection.  An entry is one line of the
    output only if its text has no line break. *)
Theorem output_sections_sorted_unique
  (loads : string -> result value) (set_of : set_iteration)
  (enc : stdout_encoding) (stdin : list string) (st : state) :
  for_lines loads initial stdin = Ok st ->
  (forall x, In x (errors st) \/ In x (warnings st) -> encodable enc x = true) ->
  exists es ws : list string,
    main loads set_of enc stdin
    = Ok ("=== ERRORS ===
" ++ entry_lines es ++ "
=== WARNINGS ===
" ++ entry_lines ws)
    /\ StronglySorted str_lt es /\ NoDup es
    /\ (forall x, In x es <-> In x (errors st))
    /\ StronglySorted str_lt ws /\ NoDup ws
    /\ (forall x, In x ws <-> In x (warnings st)).
Proof.
  intros F E.
  exists (sorted (set_of (errors st))), (sorted (set_of (warnings st))).
  split.
  - unfold main. rewrite F. cbn [bind]. now rewrite (output_all enc set_of st E).
  - destruct (sorted_set_spec set_of (errors st)) as (S1 & N1 & I1).
    destruct (sorted_set_spec set_of (warnings st)) as (S2 & N2 & I2).
    auto 10.
Qed.

Lemma output_sections_sorted_unique_witness :
  exists es ws : list string,
    main json_loads reverse_order ascii_encoding
      [unused_warning_line; scenario_A_line; bare_warning_line;
       unused_warning_line; scenario_A_line]
    = Ok ("=== ERRORS ===
" ++ entry_lines es ++ "
=== WARNINGS ===
" ++ entry_lines ws)
    /\ StronglySorted str_lt es /\ NoDup es
    /\ (forall x, In x es <->
          In x ["error|src/main.rs:10|mismatched types";
                "error|src/main.rs:10|mismatched types"])
    /\ StronglySorted str_lt ws /\ NoDup ws
    /\ (forall x, In x ws <->
          In x ["warning|src/lib.rs:3|unused variable"; "warning|unknown:0|";
                "warning|src/lib.rs:3|unused variable"]).
Proof.
  apply (@output_sections_sorted_unique json_loads reverse_order ascii_encoding
           [unused_warning_line; scenario_A_line; bare_warning_line;
            unused_warning_line; scenario_A_line]
           {| errors := ["error|src/main.rs:10|mismatched types";
                         "error|src/main.rs:10|mismatched types"];
              warnings := ["warning|src/lib.rs:3|unused variable";
                           "warning|unknown:0|";
                           "warning|src/lib.rs:3|unused variable"] |}).
  - vm_compute. reflexivity.
  - intros x [[<- | [<- | []]] | [<- | [<- | [<- | []]]]]; reflexivity.
Defined.

(** The claim as stated fails on a message with a line break: the loop ends
    with one entry, and the output has two lines for it under the first
    header, the second of which sorts before the first. *)
Lemma output_sections_counterexample :
  for_lines json_loads initial [two_line_message_line]
  = Ok {| errors := ["error|unknown:0|z
a"]; warnings := [] |}
  /\ main json_loads insertion_order utf_8 [two_line_message_line]
     = Ok "=== ERRORS ===
error|unknown:0|z
a

=== WARNINGS ===
"
  /\ splitlines "=== ERRORS ===
error|unknown:0|z
a

=== WARNINGS ===
" = ["=== ERRORS ==="; "error|unknown:0|z"; "a"; ""; "=== WARNINGS ==="]
  /\ str_ltb "a" "error|unknown:0|z" = true.
Proof. vm_compute. repeat split. Qed.

Lemma sorted_set_singleton (set_of : set_iteration) (x : string) :
  sorted (set_of [x]) = [x].
Proof.
  change [x] with (sorted (insertion_order [x])) at 2.
  apply sorted_set_ext. tauto.
Qed.

Lemma sorted_set_nil (set_of : set_iteration) : sorted (set_of []) = [].
Proof.
  change (@nil string) with (sorted (insertion_order [])) at 2.
  apply sorted_set_ext. tauto.
Qed.

(** C6 (scenario A): on the line of scenario A the output is the line
    [=== ERRORS ===], the line [error|src/main.rs:10|mismatched types], an
    empty line and the line [=== WARNINGS ===], whatever the iteration order
    of the sets and the encoding of standard output. *)
Theorem scenario_A_output (set_of : set_iteration) (enc : stdout_encoding) :
  main json_loads set_of enc [scenario_A_line]
  = Ok "=== ERRORS ===
error|src/main.rs:10|mismatched types

=== WARNINGS ===
".
Proof.
  unfold main.
  replace (for_lines json_loads initial [scenario_A_line])
    with (Ok {| errors := ["error|src/main.rs:10|mismatched types"];
                warnings := [] |})
    by (vm_compute; reflexivity).
  cbn [bind]. rewrite output_all.
  - cbn [errors warnings].
    rewrite sorted_set_singleton, sorted_set_nil. reflexivity.
  - cbn [errors warnings].
    intros x [[<- | []] | []]. now apply all_ascii_encodable.
Qed.

(** ** Lines the decoder refuses *)

(** C7 (amended): a line that is not blank and on which the decoder raises
    a JSON decode error is passed over: the turn of the loop leaves both
    collections as they are and raises nothing, and the run goes on as if
    the line were not there.  A line on which the decoder raises another
    exception ([ValueError] for an integer literal beyond the digit limit,
    [RecursionError] for nesting too deep) is not passed over: the exception
    is not caught and ends the run with status 1 and nothing on standard
    output.  The number of entries printed is at most the number of lines
    decoded with success. *)
Theorem refused_line_is_skipped_or_ends_run
  (loads : string -> result value) (set_of : set_iteration)
  (enc : stdout_encoding)
  (before after : list string) (line : string) (e : exn) :
  strip line <> "" ->
  loads (strip line) = Raise e ->
  (e = JSONDecodeError ->
   (forall st, loop_body loads st line = Ok st)
   /\ main loads set_of enc (before ++ line :: after)
      = main loads set_of enc (before ++ after)
   /\ run loads set_of enc (before ++ line :: after)
      = run loads set_of enc (before ++ after))
  /\ (e <> JSONDecodeError ->
      (forall st, loop_body loads st line = Raise e)
      /\ (forall st, for_lines loads initial before = Ok st ->
            main loads set_of enc (before ++ line :: after) = Raise e
            /\ run loads set_of enc (before ++ line :: after)
               = {| stdout := ""; exit_status := 1 |}))
  /\ (forall st, for_lines loads initial (before ++ line :: after) = Ok st ->
        List.length (printed_entries set_of st)
        <= decoded_count loads (before ++ line :: after)).
Proof.
  intros NE L. apply String.eqb_neq in NE. split; [| split].
  - intros ->.
    assert (LB : forall st, loop_body loads st line = Ok st).
    { intro st. unfold loop_body. now rewrite NE, L. }
    assert (F : for_lines loads initial (before ++ line :: after)
                = for_lines loads initial (before ++ after)).
    { rewrite !for_lines_app.
      destruct (for_lines loads initial before) as [st | e]; [| reflexivity].
      cbn [bind for_lines]. now rewrite LB. }
    split; [exact LB |]. unfold main, run. now rewrite F.
  - intro N.
    assert (LB : forall st, loop_body loads st line = Raise e).
    { intro st. unfold loop_body. rewrite NE, L.
      destruct e; try reflexivity. now contradiction N. }
    split; [exact LB |]. intros st B.
    assert (F : for_lines loads initial (before ++ line :: after) = Raise e).
    { rewrite for_lines_app, B. cbn [bind for_lines]. now rewrite LB. }
    unfold main, run. now rewrite F.
  - intros st H. apply for_lines_length in H. simpl in H.
    unfold printed_entries. rewrite length_app.
    pose proof (sorted_set_length set_of (errors st)).
    pose proof (sorted_set_length set_of (warnings st)).
    lia.
Qed.

Lemma refused_line_is_skipped_or_ends_run_witness :
  (JSONDecodeError = JSONDecodeError ->
   (forall st, loop_body json_loads st not_json_line = Ok st)
   /\ main json_loads insertion_order utf_8
        ([scenario_A_line] ++ not_json_line :: [unused_warning_line])
      = main json_loads insertion_order utf_8
          ([scenario_A_line] ++ [unused_warning_line])
   /\ run json_loads insertion_order utf_8
        ([scenario_A_line] ++ not_json_line :: [unused_warning_line])
      = run json_loads insertion_order utf_8
          ([scenario_A_line] ++ [unused_warning_line]))
  /\ (JSONDecodeError <> JSONDecodeError ->
      (forall st, loop_body json_loads st not_json_line = Raise JSONDecodeError)
      /\ (forall st, for_lines json_loads initial [scenario_A_line] = Ok st ->
            main json_loads insertion_order utf_8
              ([scenario_A_line] ++ not_json_line :: [unused_warning_line])
            = Raise JSONDecodeError
            /\ run json_loads insertion_order utf_8
                 ([scenario_A_line] ++ not_json_line :: [unused_warning_line])
               = {| stdout := ""; exit_status := 1 |}))
  /\ (forall st,
        for_lines json_loads initial
          ([scenario_A_line] ++ not_json_line :: [unused_warning_line])
        = Ok st ->
        List.length (printed_entries insertion_order st)
        <= decoded_count json_loads
             ([scenario_A_line] ++ not_json_line :: [unused_warning_line])).
Proof.
  apply (@refused_line_is_skipped_or_ends_run json_loads insertion_order utf_8
           [scenario_A_line] [unused_warning_line] not_json_line JSONDecodeError).
  - discriminate.
  - vm_compute. reflexivity.
Defined.

(** The claim as stated fails on a line that is no JSON and on which the
    decoder raises [ValueError]: 4301 digits followed by a letter.  The run
    ends with that exception, and the entry of the next line, which the
    script prints when given that line alone, is never printed. *)
Lemma refused_line_counterexample :
  json_loads (strip long_integer_line) = Raise ValueError
  /\ main json_loads insertion_order utf_8 [long_integer_line; scenario_A_line]
     = Raise ValueError
  /\ run json_loads insertion_order utf_8 [long_integer_line; scenario_A_line]
     = {| stdout := ""; exit_status := 1 |}
  /\ main json_loads insertion_order utf_8 [scenario_A_line]
     = Ok "=== ERRORS ===
error|src/main.rs:10|mismatched types

=== WARNINGS ===
".
Proof. vm_compute. repeat split. Qed.

(** ** Determinism *)

(** C8: two runs on the same input print the same text, whatever order
    each of them iterates its sets in: the result rests on the final sort
    only. *)
Theorem output_independent_of_set_order
  (loads : string -> result value) (order1 order2 : set_iteration)
  (enc : stdout_encoding) (stdin : list string) :
  main loads order1 enc stdin = main loads order2 enc stdin
  /\ run loads order1 enc stdin = run loads order2 enc stdin.
Proof.
  unfold main, run.
  destruct (for_lines loads initial stdin) as [st | e]; [| split; reflexivity].
  cbn [bind].
  rewrite (output_ext enc order1 order2 st st) by tauto.
  split; reflexivity.
Qed.

(** C9: two inputs with the same lines in another order give the same
    standard output and the same exit status. *)
Theorem output_invariant_under_permutation
  (loads : string -> result value) (set_of : set_iteration)
  (enc : stdout_encoding) (stdin stdin' : list string) :
  Permutation stdin stdin' ->
  run loads set_of enc stdin = run loads set_of enc stdin'.
Proof.
  intro P.
  pose proof (for_lines_ok loads initial stdin) as H.
  pose proof (for_lines_ok loads initial stdin') as H'.
  assert (E : forallb (fun line => is_ok (line_entry loads line)) stdin
              = forallb (fun line => is_ok (line_entry loads line)) stdin').
  { apply eq_true_iff_eq. rewrite !forallb_forall.
    split; intros F line I; apply F.
    - apply Permutation_in with (l := stdin'); [now symmetry | exact I].
    - apply Permutation_in with (l := stdin); assumption. }
  rewrite <- E in H'. clear E.
  unfold run.
  destruct (for_lines loads initial stdin) as [st | e] eqn:F,
           (for_lines loads initial stdin') as [st' | e'] eqn:F';
    simpl in *; try congruence.
  rewrite (output_ext enc set_of set_of st st'); [reflexivity | |].
  - intro x.
    rewrite (@for_lines_errors loads stdin initial st x F),
      (@for_lines_errors loads stdin' initial st' x F').
    split; intros [I | (l & lv & I & Q)]; try (now left); right; exists l, lv;
      (split; [| exact Q]).
    + now apply Permutation_in with (l := stdin).
    + apply Permutation_in with (l := stdin'); [now symmetry | exact I].
  - intro x.
    rewrite (@for_lines_warnings loads stdin initial st x F),
      (@for_lines_warnings loads stdin' initial st' x F').
    split; intros [I | (l & lv & I & Q)]; try (now left); right; exists l, lv;
      (split; [| exact Q]).
    + now apply Permutation_in with (l := stdin).
    + apply Permutation_in with (l := stdin'); [now symmetry | exact I].
Qed.

Lemma output_invariant_under_permutation_witness :
  run json_loads insertion_order utf_8
    [unused_warning_line; scenario_A_line; not_json_line; bare_warning_line]
  = run json_loads insertion_order utf_8
      [scenario_A_line; unused_warning_line; not_json_line; bare_warning_line].
Proof.
  apply (@output_invariant_under_permutation json_loads insertion_order utf_8).
  apply perm_swap.
Defined.
(** ** Falsy [spans] *)

Lemma dict_lookup_set (d : list (string * value)) (key key' : string) (v : value) :
  dict_lookup (dict_set d key v) key'
  = if String.eqb key key' then Some v else dict_lookup d key'.
Proof.
  induction d as [| [k w] d IH]; simpl; [reflexivity |].
  destruct (String.eqb_spec k key) as [-> | N]; simpl.
  - destruct (String.eqb key key'); reflexivity.
  - rewrite IH.
    destruct (String.eqb_spec k key') as [-> | N']; [| reflexivity].
    destruct (String.eqb_spec key key') as [-> | _]; [contradiction | reflexivity].
Qed.

(** The values [if spans:] takes for false. *)
Lemma falsy_values (v : value) :
  truthy v = false <->
  v = VNone \/ v = VBool false \/ v = VInt 0
  \/ (exists f, v = VFloat f /\ float_bool f = false)
  \/ v = VStr "" \/ v = VList [] \/ v = VDict [].
Proof.
  split.
  - destruct v as [| b | n | f | s | l | d]; simpl; intro H.
    + now left.
    + right; left. now destruct b.
    + right; right; left. f_equal.
      apply Z.eqb_eq. now destruct (Z.eqb n 0).
    + right; right; right; left. now exists f.
    + do 4 right; left. f_equal.
      apply String.eqb_eq. now destruct (String.eqb s "").
    + do 5 right; left. now destruct l.
    + do 6 right. now destruct d.
  - intros [-> | [-> | [-> | [(f & -> & F) | [-> | [-> | ->]]]]]]; auto.
Qed.

Lemma diagnostic_falsy_spans (d m : list (string * value)) (level : string)
  (spans : value) :
  dict_lookup d "reason" = Some (VStr "compiler-message") ->
  dict_lookup d "message" = Some (VDict m) ->
  dict_lookup m "level" = Some (VStr level) ->
  level = "error" \/ level = "warning" ->
  dict_lookup m "spans" = Some spans ->
  truthy spans = false ->
  diagnostic (VDict d) = Ok None.
Proof.
  intros R M L Lv S T.
  assert (P : py_in (VStr level) ["error"; "warning"] = true)
    by (destruct Lv as [-> | ->]; reflexivity).
  unfold diagnostic. cbn [py_get bind].
  rewrite (dict_get_lookup _ _ R). cbn [py_eq_str]. rewrite String.eqb_refl.
  rewrite (dict_get_lookup _ _ M). cbn [py_get bind].
  rewrite (dict_get_lookup _ _ L), P.
  rewrite (dict_get_lookup _ _ S), T. reflexivity.
Qed.

(** C10: a compiler message of level "error" or "warning" whose [spans]
    holds a falsy value ([null], [false], [0], the empty string, the empty
    list, and the empty object or a zero float as well) yields no entry and
    raises nothing: the turn of the loop leaves both collections as they
    are, which is what the same record does with [spans] set to the empty
    list. *)
Theorem falsy_spans_record_is_dropped
  (loads : string -> result value) (st : state) (line : string)
  (d m : list (string * value)) (level : string) (spans : value) :
  strip line <> "" ->
  loads (strip line) = Ok (VDict d) ->
  dict_lookup d "reason" = Some (VStr "compiler-message") ->
  dict_lookup d "message" = Some (VDict m) ->
  dict_lookup m "level" = Some (VStr level) ->
  level = "error" \/ level = "warning" ->
  dict_lookup m "spans" = Some spans ->
  truthy spans = false ->
  diagnostic (VDict d) = Ok None
  /\ loop_body loads st line = Ok st
  /\ diagnostic (VDict (dict_set d "message" (VDict (dict_set m "spans" (VList [])))))
     = diagnostic (VDict d).
Proof.
  intros NE Ld R M L Lv S T.
  assert (D : diagnostic (VDict d) = Ok None)
    by (eapply diagnostic_falsy_spans; eassumption).
  split; [exact D |]. split.
  - unfold loop_body. apply String.eqb_neq in NE. rewrite NE, Ld.
    cbn [bind]. now rewrite D.
  - rewrite D.
    apply diagnostic_falsy_spans
      with (m := dict_set m "spans" (VList [])) (level := level) (spans := VList []).
    + rewrite dict_lookup_set. exact R.
    + rewrite dict_lookup_set. reflexivity.
    + rewrite dict_lookup_set. exact L.
    + exact Lv.
    + rewrite dict_lookup_set. reflexivity.
    + reflexivity.
Qed.

Lemma falsy_spans_record_is_dropped_witness :
  diagnostic
    (VDict [("reason", VStr "compiler-message");
            ("message", VDict [("level", VStr "error"); ("spans", VNone)])])
  = Ok None
  /\ loop_body json_loads
       {| errors := ["error|src/main.rs:10|mismatched types"]; warnings := [] |}
       null_spans_line
     = Ok {| errors := ["error|src/main.rs:10|mismatched types"]; warnings := [] |}
  /\ diagnostic
       (VDict (dict_set
                 [("reason", VStr "compiler-message");
                  ("message", VDict [("level", VStr "error"); ("spans", VNone)])]
                 "message"
                 (VDict (dict_set [("level", VStr "error"); ("spans", VNone)]
                           "spans" (VList [])))))
     = diagnostic
         (VDict [("reason", VStr "compiler-message");
                 ("message", VDict [("level", VStr "error"); ("spans", VNone)])]).
Proof.
  apply (@falsy_spans_record_is_dropped json_loads
           {| errors := ["error|src/main.rs:10|mismatched types"]; warnings := [] |}
           null_spans_line
           [("reason", VStr "compiler-message");
            ("message", VDict [("level", VStr "error"); ("spans", VNone)])]
           [("level", VStr "error"); ("spans", VNone)]
           "error" VNone).
  - discriminate.
  - vm_compute. reflexivity.
  - reflexivity.
  - reflexivity.
  - reflexivity.
  - left. reflexivity.
  - reflexivity.
  - reflexivity.
Defined.

(** * Further properties of the script *)

(** ** Lines and records that are passed over *)

(** X1: a line that is empty after trimming is passed over before the
    decoder is called: the turn leaves both collections as they are whatever
    the decoder would answer, and the run is the run without the line. *)
Theorem blank_line_is_skipped
  (loads : string -> result value) (set_of : set_iteration)
  (enc : stdout_encoding)
  (before after : list string) (line : string) :
  strip line = "" ->
  (forall st, loop_body loads st line = Ok st)
  /\ main loads set_of enc (before ++ line :: after)
     = main loads set_of enc (before ++ after).
Proof.
  intro E.
  assert (LB : forall st, loop_body loads st line = Ok st).
  { intro st. unfold loop_body. now rewrite E. }
  split; [exact LB |].
  unfold main. rewrite !for_lines_app.
  destruct (for_lines loads initial before) as [st | e]; [| reflexivity].
  cbn [bind for_lines]. now rewrite LB.
Qed.

Lemma blank_line_is_skipped_witness :
  (forall st, loop_body (fun _ => Raise TypeError) st (String " " (String newline "")) = Ok st)
  /\ main (fun _ => Raise TypeError) insertion_order utf_8
       ([] ++ String " " (String newline "") :: [])
     = main (fun _ => Raise TypeError) insertion_order utf_8 ([] ++ []).
Proof.
  apply (@blank_line_is_skipped (fun _ => Raise TypeError) insertion_order utf_8
           [] [] (String " " (String newline ""))).
  reflexivity.
Defined.

Lemma other_reason_no_match (d : list (string * value)) :
  dict_lookup d "reason" <> Some (VStr "compiler-message") ->
  py_eq_str (dict_get d "reason" VNone) "compiler-message" = false.
Proof.
  intro N. unfold dict_get.
  destruct (dict_lookup d "reason") as [v |]; [| reflexivity].
  destruct v; try reflexivity. simpl.
  destruct (String.eqb_spec s "compiler-message") as [-> | _]; [| reflexivity].
  now contradiction N.
Qed.

(** X2: a record whose [reason] is missing or is not the string
    "compiler-message" is passed over without a look at the rest of it:
    whatever [message] holds, the turn raises nothing and leaves both
    collections as they are. *)
Theorem other_reason_is_passed_over
  (loads : string -> result value) (st : state) (line : string)
  (d : list (string * value)) :
  loads (strip line) = Ok (VDict d) ->
  dict_lookup d "reason" <> Some (VStr "compiler-message") ->
  diagnostic (VDict d) = Ok None /\ loop_body loads st line = Ok st.
Proof.
  intros L N.
  assert (D : diagnostic (VDict d) = Ok None).
  { unfold diagnostic. cbn [py_get bind]. now rewrite other_reason_no_match. }
  split; [exact D |].
  unfold loop_body. rewrite L.
  destruct (String.eqb (strip line) ""); [reflexivity |].
  cbn [bind]. now rewrite D.
Qed.

Lemma other_reason_is_passed_over_witness :
  diagnostic (VDict [("reason", VStr "build-finished")]) = Ok None
  /\ loop_body json_loads initial build_finished_line = Ok initial.
Proof.
  apply (@other_reason_is_passed_over json_loads initial build_finished_line
           [("reason", VStr "build-finished")]).
  - vm_compute. reflexivity.
  - discriminate.
Defined.

Lemma other_level_no_match (m : list (string * value)) :
  dict_lookup m "level" <> Some (VStr "error") ->
  dict_lookup m "level" <> Some (VStr "warning") ->
  py_in (dict_get m "level" VNone) ["error"; "warning"] = false.
Proof.
  intros N1 N2. unfold dict_get.
  destruct (dict_lookup m "level") as [v |]; [| reflexivity].
  destruct (py_in v ["error"; "warning"]) eqn:P; [| reflexivity].
  apply py_in_levels in P. destruct P as [-> | ->]; congruence.
Qed.

(** X3: a compiler message whose [level] is missing or is neither "error"
    nor "warning" is passed over without a look at its [spans]: whatever
    [spans] holds, the turn raises nothing and leaves both collections as
    they are.  The same holds when the record has no [message] at all. *)
Theorem other_level_is_passed_over
  (loads : string -> result value) (st : state) (line : string)
  (d m : list (string * value)) :
  loads (strip line) = Ok (VDict d) ->
  dict_lookup d "message" = Some (VDict m)
  \/ (dict_lookup d "message" = None /\ m = []) ->
  dict_lookup m "level" <> Some (VStr "error") ->
  dict_lookup m "level" <> Some (VStr "warning") ->
  diagnostic (VDict d) = Ok None /\ loop_body loads st line = Ok st.
Proof.
  intros L M N1 N2.
  assert (G : dict_get d "message" (VDict []) = VDict m).
  { unfold dict_get. destruct M as [-> | [-> ->]]; reflexivity. }
  assert (D : diagnostic (VDict d) = Ok None).
  { unfold diagnostic. cbn [py_get bind].
    destruct (py_eq_str (dict_get d "reason" VNone) "compiler-message");
      [| reflexivity].
    rewrite G. cbn [py_get bind].
    now rewrite other_level_no_match. }
  split; [exact D |].
  unfold loop_body. rewrite L.
  destruct (String.eqb (strip line) ""); [reflexivity |].
  cbn [bind]. now rewrite D.
Qed.

Lemma other_level_is_passed_over_witness :
  diagnostic
    (VDict [("reason", VStr "compiler-message");
            ("message", VDict [("level", VStr "note"); ("spans", VInt 5)])])
  = Ok None
  /\ loop_body json_loads initial note_line = Ok initial.
Proof.
  apply (@other_level_is_passed_over json_loads initial note_line
           [("reason", VStr "compiler-message");
            ("message", VDict [("level", VStr "note"); ("spans", VInt 5)])]
           [("level", VStr "note"); ("spans", VInt 5)]).
  - vm_compute. reflexivity.
  - left. reflexivity.
  - discriminate.
  - discriminate.
Defined.

(** ** Where the entries go *)

Lemma diagnostic_some_text (data level : value) (entry : string) :
  diagnostic data = Ok (Some (level, entry)) ->
  exists rest, entry = py_str level ++ "|" ++ rest.
Proof.
  unfold diagnostic.
  destruct data as [| | | | | | d]; cbn [py_get bind]; try discriminate.
  destruct (py_eq_str (dict_get d "reason" VNone) "compiler-message");
    [| discriminate].
  destruct (dict_get d "message" (VDict [])) as [| | | | | | m];
    cbn [py_get bind]; try discriminate.
  destruct (py_in (dict_get m "level" VNone) ["error"; "warning"]);
    [| discriminate].
  destruct (truthy (dict_get m "spans" (VList []))); [| discriminate].
  destruct (py_getitem0 (dict_get m "spans" (VList []))) as [span | e];
    cbn [bind]; [| discriminate].
  destruct span; cbn [py_get bind]; try discriminate.
  intro H. injection H as <- <-.
  unfold format_entry. eexists. reflexivity.
Qed.

(** X4: the two collections never mix: every entry printed under
    [=== ERRORS ===] starts with [error|] and every entry printed under
    [=== WARNINGS ===] starts with [warning|]. *)
Theorem sections_keep_their_level
  (loads : string -> result value) (set_of : set_iteration)
  (stdin : list string) (st : state) :
  for_lines loads initial stdin = Ok st ->
  (forall x, In x (sorted (set_of (errors st))) -> exists rest, x = "error|" ++ rest)
  /\ (forall x, In x (sorted (set_of (warnings st))) ->
        exists rest, x = "warning|" ++ rest).
Proof.
  intro F. split; intros x I; rewrite sorted_In, set_iter_In in I.
  - apply (@for_lines_errors loads stdin initial st x F) in I.
    destruct I as [[] | (line & level & _ & E & P)].
    apply line_entry_some_diagnostic in E. destruct E as (data & _ & D).
    apply diagnostic_some_text in D. destruct D as (rest & ->).
    destruct level; try discriminate. simpl in P.
    apply String.eqb_eq in P. subst s. now exists rest.
  - apply (@for_lines_warnings loads stdin initial st x F) in I.
    destruct I as [[] | (line & level & _ & E & P)].
    apply line_entry_some_diagnostic in E. destruct E as (data & _ & D).
    pose proof (@diagnostic_some_inv _ _ _ D) as (d & m & span & rest' & _ & _ & _ & _ & Lv & _).
    apply diagnostic_some_text in D. destruct D as (rest & ->).
    destruct Lv as [-> | ->]; [discriminate | now exists rest].
Qed.

Lemma sections_keep_their_level_witness :
  (forall x,
      In x (sorted (reverse_order
                      (errors {| errors := ["error|src/main.rs:10|mismatched types"];
                                 warnings := ["warning|unknown:0|"] |}))) ->
      exists rest, x = "error|" ++ rest)
  /\ (forall x,
        In x (sorted (reverse_order
                        (warnings {| errors := ["error|src/main.rs:10|mismatched types"];
                                     warnings := ["warning|unknown:0|"] |}))) ->
        exists rest, x = "warning|" ++ rest).
Proof.
  apply (@sections_keep_their_level json_loads reverse_order
           [bare_warning_line; not_json_line; scenario_A_line]).
  vm_compute. reflexivity.
Defined.

(** ** Exceptions *)

Lemma diagnostic_raise_kinds (data : value) (e : exn) :
  diagnostic data = Raise e ->
  e = AttributeError \/ e = TypeError \/ e = KeyError.
Proof.
  unfold diagnostic.
  destruct data as [| | | | | | d]; cbn [py_get bind];
    try (intro H; injection H as <-; now left).
  destruct (py_eq_str (dict_get d "reason" VNone) "compiler-message");
    [| discriminate].
  destruct (dict_get d "message" (VDict [])) as [| | | | | | m];
    cbn [py_get bind]; try (intro H; injection H as <-; now left).
  destruct (py_in (dict_get m "level" VNone) ["error"; "warning"]);
    [| discriminate].
  destruct (dict_get m "spans" (VList [])) as [| b | n | f | s | l | sd];
    cbn [truthy].
  - discriminate.
  - destruct b; [| discriminate]. intro H; injection H as <-. auto.
  - destruct (negb (Z.eqb n 0)); [| discriminate]. intro H; injection H as <-. auto.
  - destruct (float_bool f); [| discriminate]. intro H; injection H as <-. auto.
  - destruct s; [discriminate |]. intro H; injection H as <-. auto.
  - destruct l as [| x l]; [discriminate |].
    cbn [py_getitem0 bind].
    destruct x; cbn [py_get bind]; try discriminate;
      intro H; injection H as <-; auto.
  - destruct sd; [discriminate |]. intro H; injection H as <-. auto.
Qed.

Lemma for_lines_raise
  (loads : string -> result value) (stdin : list string) (st : state) (e : exn) :
  for_lines loads st stdin = Raise e ->
  exists line, In line stdin /\ line_entry loads line = Raise e.
Proof.
  revert st. induction stdin as [| line rest IH]; intros st H; simpl in H;
    [discriminate |].
  rewrite loop_body_line_entry in H.
  destruct (line_entry loads line) as [d | e'] eqn:E; simpl in H.
  - apply IH in H. destruct H as (l & I & R). exists l. simpl; auto.
  - injection H as ->. exists line. simpl; auto.
Qed.

Lemma forallb_false_witness (A : Type) (f : A -> bool) (l : list A) :
  forallb f l = false -> exists x, In x l /\ f x = false.
Proof.
  induction l as [| a l IH]; simpl; [discriminate |].
  destruct (f a) eqn:E; simpl.
  - intro H. destruct (IH H) as (x & I & F). exists x. auto.
  - intros _. exists a. auto.
Qed.

(** X5: the exceptions a run can end with.  It never ends with a JSON
    decode error.  It ends in the loop with [AttributeError], [TypeError]
    or [KeyError], raised by a lookup of the script (never [IndexError]:
    [spans[0]] is guarded by the test of [spans]), or with an exception
    other than a JSON decode error that the decoder raised on one of the
    lines; or it ends after the loop with [UnicodeEncodeError], raised by a
    [print] on a collected entry that standard output cannot encode. *)
Theorem run_exception_kinds
  (loads : string -> result value) (set_of : set_iteration)
  (enc : stdout_encoding) (stdin : list string) (e : exn) :
  main loads set_of enc stdin = Raise e ->
  e <> JSONDecodeError
  /\ (e = AttributeError \/ e = TypeError \/ e = KeyError
      \/ (exists line, In line stdin /\ strip line <> ""
                       /\ loads (strip line) = Raise e)
      \/ (e = UnicodeEncodeError
          /\ exists st x,
               for_lines loads initial stdin = Ok st
               /\ (In x (errors st) \/ In x (warnings st))
               /\ encodable enc x = false)).
Proof.
  unfold main. intro H.
  destruct (for_lines loads initial stdin) as [st | e'] eqn:F.
  - cbn [bind] in H. unfold output in H.
    pose proof (print_each_raised enc (prints set_of st)) as R.
    destruct (print_each enc (prints set_of st)) as [out [e1 |]] eqn:O;
      [| discriminate].
    injection H as ->. cbn [snd] in R. destruct R as [R | R]; [discriminate |].
    injection R as ->. split; [discriminate |].
    do 4 right. split; [reflexivity |].
    destruct (forallb (encodable enc) (prints set_of st)) eqn:A.
    + rewrite (print_each_all _ _ A) in O. discriminate.
    + apply forallb_false_witness in A. destruct A as (x & I & N).
      exists st, x. split; [reflexivity |]. split; [| exact N].
      unfold prints in I. simpl in I. rewrite in_app_iff in I. simpl in I.
      rewrite !sorted_In, !set_iter_In in I.
      destruct I as [<- | [I | [<- | I]]]; auto;
        rewrite all_ascii_encodable in N by reflexivity; discriminate.
  - injection H as ->.
    apply for_lines_raise in F. destruct F as (line & I & E).
    unfold line_entry in E.
    destruct (String.eqb_spec (strip line) "") as [_ | NE]; [discriminate |].
    destruct (loads (strip line)) as [data | e'] eqn:L.
    + split.
      * intros ->. exact (diagnostic_never_decode_error _ E).
      * apply diagnostic_raise_kinds in E. tauto.
    + assert (e' = e /\ e <> JSONDecodeError) as [-> N]
        by (destruct e'; try discriminate; injection E as <-;
            (split; [reflexivity | discriminate])).
      split; [exact N |].
      do 3 right. left. now exists line.
Qed.

Lemma run_exception_kinds_witness :
  UnicodeEncodeError <> JSONDecodeError
  /\ (UnicodeEncodeError = AttributeError \/ UnicodeEncodeError = TypeError
      \/ UnicodeEncodeError = KeyError
      \/ (exists line,
            In line [not_json_line; accent_message_line]
            /\ strip line <> "" /\ json_loads (strip line) = Raise UnicodeEncodeError)
      \/ (UnicodeEncodeError = UnicodeEncodeError
          /\ exists st x,
               for_lines json_loads initial [not_json_line; accent_message_line]
               = Ok st
               /\ (In x (errors st) \/ In x (warnings st))
               /\ encodable ascii_encoding x = false)).
Proof.
  apply (@run_exception_kinds json_loads insertion_order ascii_encoding
           [not_json_line; accent_message_line]).
  vm_compute. reflexivity.
Defined.

(** X6: an exception raised in one turn of the loop ends the whole run:
    the lines after it are not read, the entries collected before it are
    not printed, and the process ends with status 1. *)
Theorem exception_in_a_turn_ends_run
  (loads : string -> result value) (set_of : set_iteration)
  (enc : stdout_encoding)
  (before after : list string) (line : string) (st : state) (e : exn) :
  for_lines loads initial before = Ok st ->
  loop_body loads st line = Raise e ->
  main loads set_of enc (before ++ line :: after) = Raise e
  /\ run loads set_of enc (before ++ line :: after)
     = {| stdout := ""; exit_status := 1 |}.
Proof.
  intros B LB.
  assert (F : for_lines loads initial (before ++ line :: after) = Raise e).
  { rewrite for_lines_app, B. cbn [bind for_lines]. now rewrite LB. }
  unfold main, run. now rewrite F.
Qed.

Lemma exception_in_a_turn_ends_run_witness :
  main json_loads insertion_order utf_8
    ([scenario_A_line] ++ object_spans_line :: [array_line])
  = Raise KeyError
  /\ run json_loads insertion_order utf_8
       ([scenario_A_line] ++ object_spans_line :: [array_line])
     = {| stdout := ""; exit_status := 1 |}.
Proof.
  apply (@exception_in_a_turn_ends_run json_loads insertion_order utf_8
           [scenario_A_line] [array_line] object_spans_line
           {| errors := ["error|src/main.rs:10|mismatched types"]; warnings := [] |}).
  - vm_compute. reflexivity.
  - vm_compute. reflexivity.
Defined.

(** X7: a record that is a compiler message and whose [message] is present
    and is no mapping (a text, a number, [null], a list) ends the run:
    [msg.get('level')] raises [AttributeError], whatever the level would
    have been. *)
Theorem non_mapping_message_raises
  (loads : string -> result value) (st : state) (line : string)
  (d : list (string * value)) (msg : value) :
  strip line <> "" ->
  loads (strip line) = Ok (VDict d) ->
  dict_lookup d "reason" = Some (VStr "compiler-message") ->
  dict_lookup d "message" = Some msg ->
  is_dict msg = false ->
  diagnostic (VDict d) = Raise AttributeError
  /\ loop_body loads st line = Raise AttributeError.
Proof.
  intros NE L R M N.
  assert (D : diagnostic (VDict d) = Raise AttributeError).
  { unfold diagnostic. cbn [py_get bind].
    rewrite (dict_get_lookup _ _ R). cbn [py_eq_str]. rewrite String.eqb_refl.
    rewrite (dict_get_lookup _ _ M).
    destruct msg; try discriminate; reflexivity. }
  split; [exact D |].
  unfold loop_body. apply String.eqb_neq in NE. rewrite NE, L.
  cbn [bind]. now rewrite D.
Qed.

Lemma non_mapping_message_raises_witness :
  diagnostic
    (VDict [("reason", VStr "compiler-message");
            ("message", VStr "mismatched types")])
  = Raise AttributeError
  /\ loop_body json_loads initial text_message_line = Raise AttributeError.
Proof.
  apply (@non_mapping_message_raises json_loads initial text_message_line
           [("reason", VStr "compiler-message");
            ("message", VStr "mismatched types")]
           (VStr "mismatched types")).
  - discriminate.
  - vm_compute. reflexivity.
  - reflexivity.
  - reflexivity.
  - reflexivity.
Defined.

(** X8: a compiler message of level "error" or "warning" whose [spans] is
    truthy and is no list starting with a mapping ends the run, with
    [TypeError] for a number, [true] or a float, [KeyError] for an object,
    and [AttributeError] for a text or a list whose first element is no
    mapping. *)
Theorem unusable_spans_raise
  (loads : string -> result value) (st : state) (line : string)
  (d m : list (string * value)) (level : string) (spans : value) :
  strip line <> "" ->
  loads (strip line) = Ok (VDict d) ->
  dict_lookup d "reason" = Some (VStr "compiler-message") ->
  dict_lookup d "message" = Some (VDict m) ->
  dict_lookup m "level" = Some (VStr level) ->
  level = "error" \/ level = "warning" ->
  dict_lookup m "spans" = Some spans ->
  spans_shaped spans = false ->
  diagnostic (VDict d) = Raise (spans_exception spans)
  /\ loop_body loads st line = Raise (spans_exception spans).
Proof.
  intros NE Ld R M L Lv S U.
  assert (P : py_in (VStr level) ["error"; "warning"] = true)
    by (destruct Lv as [-> | ->]; reflexivity).
  assert (D : diagnostic (VDict d) = Raise (spans_exception spans)).
  { unfold diagnostic. cbn [py_get bind].
    rewrite (dict_get_lookup _ _ R). cbn [py_eq_str]. rewrite String.eqb_refl.
    rewrite (dict_get_lookup _ _ M). cbn [py_get bind].
    rewrite (dict_get_lookup _ _ L), P.
    rewrite (dict_get_lookup _ _ S).
    unfold spans_shaped in U.
    destruct spans as [| b | n | f | s | l | sd]; simpl in U; try discriminate.
    - destruct b; [reflexivity | discriminate].
    - cbn [truthy]. destruct (negb (Z.eqb n 0)); [reflexivity | discriminate].
    - cbn [truthy]. destruct (float_bool f); [reflexivity | discriminate].
    - destruct s; [discriminate | reflexivity].
    - destruct l as [| x l]; [discriminate |].
      destruct x; try discriminate; reflexivity.
    - destruct sd; [discriminate | reflexivity]. }
  split; [exact D |].
  unfold loop_body. apply String.eqb_neq in NE. rewrite NE, Ld.
  cbn [bind]. rewrite D.
  destruct spans as [| | | | | [| x l] |]; reflexivity.
Qed.

Lemma unusable_spans_raise_witness :
  diagnostic
    (VDict [("reason", VStr "compiler-message");
            ("message", VDict [("level", VStr "warning");
                               ("spans", VDict [("a", VInt 1)])])])
  = Raise KeyError
  /\ loop_body json_loads initial object_spans_line = Raise KeyError.
Proof.
  apply (@unusable_spans_raise json_loads initial object_spans_line
           [("reason", VStr "compiler-message");
            ("message", VDict [("level", VStr "warning");
                               ("spans", VDict [("a", VInt 1)])])]
           [("level", VStr "warning"); ("spans", VDict [("a", VInt 1)])]
           "warning" (VDict [("a", VInt 1)])).
  - discriminate.
  - vm_compute. reflexivity.
  - reflexivity.
  - reflexivity.
  - reflexivity.
  - right. reflexivity.
  - reflexivity.
  - reflexivity.
Defined.

(** ** What the output depends on *)

(** X9: the output depends on the set of input lines only: two inputs with
    the same lines, in any order and any number of times each, give the
    same standard output and the same exit status.  Reading an input twice
    changes nothing. *)
Theorem output_depends_on_set_of_lines
  (loads : string -> result value) (set_of : set_iteration)
  (enc : stdout_encoding) (stdin stdin' : list string) :
  (forall line, In line stdin <-> In line stdin') ->
  run loads set_of enc stdin = run loads set_of enc stdin'.
Proof.
  intro S.
  pose proof (for_lines_ok loads initial stdin) as H.
  pose proof (for_lines_ok loads initial stdin') as H'.
  assert (E : forallb (fun line => is_ok (line_entry loads line)) stdin
              = forallb (fun line => is_ok (line_entry loads line)) stdin').
  { apply eq_true_iff_eq. rewrite !forallb_forall.
    split; intros F line I; apply F; now apply S. }
  rewrite <- E in H'. clear E.
  unfold run.
  destruct (for_lines loads initial stdin) as [st | e] eqn:F,
           (for_lines loads initial stdin') as [st' | e'] eqn:F';
    simpl in *; try congruence.
  rewrite (output_ext enc set_of set_of st st'); [reflexivity | |].
  - intro x.
    rewrite (@for_lines_errors loads stdin initial st x F),
      (@for_lines_errors loads stdin' initial st' x F').
    split; intros [I | (l & lv & I & Q)]; try (now left); right; exists l, lv;
      (split; [now apply S | exact Q]).
  - intro x.
    rewrite (@for_lines_warnings loads stdin initial st x F),
      (@for_lines_warnings loads stdin' initial st' x F').
    split; intros [I | (l & lv & I & Q)]; try (now left); right; exists l, lv;
      (split; [now apply S | exact Q]).
Qed.

Lemma output_depends_on_set_of_lines_witness :
  run json_loads insertion_order utf_8 [scenario_A_line; unused_warning_line]
  = run json_loads insertion_order utf_8
      ([scenario_A_line; unused_warning_line]
       ++ [scenario_A_line; unused_warning_line]).
Proof.
  apply (@output_depends_on_set_of_lines json_loads insertion_order utf_8).
  intro line. rewrite in_app_iff. tauto.
Defined.

Lemma for_lines_unchanged
  (loads : string -> result value) (stdin : list string) (st : state) :
  Forall (fun line => loop_body loads st line = Ok st) stdin ->
  for_lines loads st stdin = Ok st.
Proof.
  induction 1 as [| line rest H _ IH]; simpl; [reflexivity |].
  rewrite H. exact IH.
Qed.

(** X10: when no line yields an entry (an empty input, or lines that are
    all blank, not JSON, or records passed over), the output is the line
    [=== ERRORS ===], an empty line and the line [=== WARNINGS ===], and
    nothing else, whatever the encoding of standard output. *)
Theorem no_entry_gives_bare_headers
  (loads : string -> result value) (set_of : set_iteration)
  (enc : stdout_encoding) (stdin : list string) :
  Forall (fun line => loop_body loads initial line = Ok initial) stdin ->
  main loads set_of enc stdin
  = Ok "=== ERRORS ===

=== WARNINGS ===
"
  /\ run loads set_of enc stdin
     = {| stdout := "=== ERRORS ===

=== WARNINGS ===
"; exit_status := 0 |}.
Proof.
  intro F. unfold main, run.
  rewrite (@for_lines_unchanged loads stdin initial F).
  cbn [bind]. rewrite output_all.
  - cbn [errors warnings initial]. rewrite sorted_set_nil. split; reflexivity.
  - cbn [errors warnings initial]. intros x [[] | []].
Qed.

Lemma no_entry_gives_bare_headers_witness :
  main json_loads reverse_order ascii_encoding
    [not_json_line; String newline ""; build_finished_line; note_line;
     null_spans_line]
  = Ok "=== ERRORS ===

=== WARNINGS ===
"
  /\ run json_loads reverse_order ascii_encoding
       [not_json_line; String newline ""; build_finished_line; note_line;
        null_spans_line]
     = {| stdout := "=== ERRORS ===

=== WARNINGS ===
"; exit_status := 0 |}.
Proof.
  apply (@no_entry_gives_bare_headers json_loads reverse_order ascii_encoding).
  repeat constructor.
Defined.

(** ** Blanks around a line *)

Lemma lstrip_space (w : string) : all_space w = true -> lstrip w = "".
Proof.
  induction w as [| c w IH]; simpl; [reflexivity |].
  intro H. apply andb_prop in H. destruct H as [C W].
  rewrite C. now apply IH.
Qed.

Lemma rstrip_space (w : string) : all_space w = true -> rstrip w = "".
Proof.
  induction w as [| c w IH]; simpl; [reflexivity |].
  intro H. apply andb_prop in H. destruct H as [C W].
  rewrite (IH W), C. reflexivity.
Qed.

Lemma lstrip_app_space (w s : string) :
  all_space w = true -> lstrip (w ++ s) = lstrip s.
Proof.
  induction w as [| c w IH]; simpl; [reflexivity |].
  intro H. apply andb_prop in H. destruct H as [C W].
  rewrite C. now apply IH.
Qed.

Lemma rstrip_app_space (s w : string) :
  all_space w = true -> rstrip (s ++ w) = rstrip s.
Proof.
  intro W. induction s as [| c s IH]; simpl.
  - now apply rstrip_space.
  - now rewrite IH.
Qed.

Lemma lstrip_app (s w : string) :
  all_space w = true ->
  lstrip (s ++ w) = if String.eqb (lstrip s) "" then "" else lstrip s ++ w.
Proof.
  intro W. induction s as [| c s IH]; simpl.
  - now apply lstrip_space.
  - destruct (isspace c); [exact IH | reflexivity].
Qed.

Lemma strip_blanks_around (w1 w2 s : string) :
  all_space w1 = true -> all_space w2 = true ->
  strip (w1 ++ s ++ w2) = strip s.
Proof.
  intros W1 W2. unfold strip.
  rewrite (@lstrip_app_space w1 (s ++ w2) W1), (@lstrip_app s w2 W2).
  destruct (String.eqb_spec (lstrip s) "") as [-> | _]; [reflexivity |].
  now apply rstrip_app_space.
Qed.

(** X11: blanks around a line do not matter: a line with any blanks (spaces,
    tabs, a carriage return before the newline, ...) put before and after
    it is trimmed to the same text, and the turn of the loop on it is the
    turn on the line itself. *)
Theorem blanks_around_a_line_are_ignored
  (loads : string -> result value) (st : state) (w1 w2 line : string) :
  all_space w1 = true ->
  all_space w2 = true ->
  strip (w1 ++ line ++ w2) = strip line
  /\ loop_body loads st (w1 ++ line ++ w2) = loop_body loads st line.
Proof.
  intros W1 W2.
  pose proof (@strip_blanks_around w1 w2 line W1 W2) as E.
  split; [exact E |].
  unfold loop_body. now rewrite E.
Qed.

Lemma blanks_around_a_line_are_ignored_witness :
  strip (String "009" " " ++ scenario_A_line ++ String "013" (String newline ""))
  = strip scenario_A_line
  /\ loop_body json_loads initial
       (String "009" " " ++ scenario_A_line ++ String "013" (String newline ""))
     = loop_body json_loads initial scenario_A_line.
Proof.
  apply (@blanks_around_a_line_are_ignored json_loads initial
           (String "009" " ") (String "013" (String newline "")) scenario_A_line).
  - reflexivity.
  - reflexivity.
Defined.

(** ** What each section holds *)


